(** * Rugpull-Detector: the token-analysis route, embedded and verified

    Shallow embedding of the comprehensive analysis route
    (src/unnamed/part_002, lines 664-1259: the [POST] handler, its four
    source adapters, the risk-factor deriver, the scorer and the Gini
    distribution scorer).

    Modelling conventions.
    - A JavaScript [number] that is always an integer in the route (impacts,
      scores, array lengths) is a [Z].  A [number] that can be fractional is
      an exact rational [Q]; where the source can produce [NaN] the type is
      [number := option Q] with [None] for [NaN].  Rounding to binary64 and
      the infinities are outside the model.
    - A string is a [string] of bytes; case conversion and the [\s] class
      are the ASCII ones.
    - An [async] function is a function to the settled state of its promise,
      [PromiseSettledResult]; what the network answers is an explicit
      argument.
    - [typeof x === "number"] guards and [obj && ...] guards on fields that
      the TypeScript interfaces make total are always true and are left
      out. *)

From Stdlib Require Import ZArith QArith Qpower List String Ascii Bool Lia Lqa.
From Stdlib Require Import Permutation Sorted.
Import ListNotations.

(* ================================================================== *)
(** * JavaScript primitives used by the route *)
(* ================================================================== *)

Module Js.

Open Scope Z_scope.

(** ** Numbers *)

Definition number : Type := option Q.

Definition num_add (a b : number) : number :=
  match a, b with
  | Some x, Some y => Some (x + y)%Q
  | _, _ => None
  end.

Definition num_mul (a b : number) : number :=
  match a, b with
  | Some x, Some y => Some (x * y)%Q
  | _, _ => None
  end.

(** [a / b]; a zero divisor gives an infinity or [NaN], both outside the
    rationals: the model answers [NaN]. *)
Definition num_div (a b : number) : number :=
  match a, b with
  | Some x, Some y => if Qeq_bool y 0 then None else Some (x / y)%Q
  | _, _ => None
  end.

Definition Qlt_bool (x y : Q) : bool := negb (Qle_bool y x).

(** [a > q]: false on [NaN]. *)
Definition num_gt (a : number) (q : Q) : bool :=
  match a with Some x => Qlt_bool q x | None => false end.

(** [a === 0] *)
Definition num_is_zero (a : number) : bool :=
  match a with Some x => Qeq_bool x 0 | None => false end.

(** [isNaN(a)] *)
Definition isNaN (a : number) : bool :=
  match a with Some _ => false | None => true end.

(** [Math.max] and [Math.min] on rationals. *)
Definition Math_max (a b : Q) : Q := if Qle_bool a b then b else a.
Definition Math_min (a b : Q) : Q := if Qle_bool a b then a else b.

(** [Math.pow(10, d)] for an integer [d]. *)
Definition pow10 (d : Z) : Q := Qpower (10 # 1) d.

(** ** Characters and strings *)

Definition code (c : ascii) : Z := Z.of_N (N_of_ascii c).

Definition in_range (lo hi : Z) (c : ascii) : bool :=
  (lo <=? code c) && (code c <=? hi).

Definition is_digit (c : ascii) : bool := in_range 48 57 c.
Definition is_upper (c : ascii) : bool := in_range 65 90 c.
Definition is_hex_digit (c : ascii) : bool :=
  is_digit c || in_range 97 102 c || in_range 65 70 c.

(** The white space of [\s] and of the number parsers: TAB, LF, VT, FF, CR
    and SPACE. *)
Definition is_space (c : ascii) : bool :=
  in_range 9 13 c || (code c =? 32).

Definition lower_char (c : ascii) : ascii :=
  if is_upper c then ascii_of_N (N_of_ascii c + 32) else c.

(** [s.toLowerCase()] *)
Fixpoint toLowerCase (s : string) : string :=
  match s with
  | EmptyString => EmptyString
  | String c r => String (lower_char c) (toLowerCase r)
  end.

(** Truthiness of a string: the empty string is falsy. *)
Definition truthy_string (s : string) : bool :=
  match s with EmptyString => false | String _ _ => true end.

(** [v || d] for [v : string | null | undefined]. *)
Definition or_string (v : option string) (d : string) : string :=
  match v with
  | Some s => if truthy_string s then s else d
  | None => d
  end.

(** [arr.includes(x)] on an array of strings. *)
Definition includes (arr : list string) (x : string) : bool :=
  existsb (String.eqb x) arr.

Fixpoint trim_start (s : string) : string :=
  match s with
  | String c r => if is_space c then trim_start r else s
  | EmptyString => EmptyString
  end.

(** The longest prefix of characters accepted by [p], and the rest. *)
Fixpoint span (p : ascii -> bool) (s : string) : list ascii * string :=
  match s with
  | String c r =>
      if p c then let (ds, rest) := span p r in (c :: ds, rest) else ([], s)
  | EmptyString => ([], EmptyString)
  end.

Definition digit_value (c : ascii) : Z :=
  if is_digit c then code c - 48
  else if in_range 97 102 c then code c - 87
  else code c - 55.

Definition digits_value (radix : Z) (ds : list ascii) : Z :=
  fold_left (fun acc c => radix * acc + digit_value c) ds 0.

(** An optional sign: the factor and the rest of the string. *)
Definition take_sign (s : string) : Z * string :=
  match s with
  | String "-"%char r => (-1, r)
  | String "+"%char r => (1, r)
  | _ => (1, s)
  end.

(** [Number.parseInt(s)] with no radix: leading white space, a sign, a
    [0x] prefix selecting radix 16, then the longest run of digits; [None]
    is [NaN]. *)
Definition parseInt (s : string) : option Z :=
  let (sg, r) := take_sign (trim_start s) in
  let '(radix, body, p) :=
    match r with
    | String "0"%char (String "x"%char r') => (16, r', is_hex_digit)
    | String "0"%char (String "X"%char r') => (16, r', is_hex_digit)
    | _ => (10, r, is_digit)
    end in
  match fst (span p body) with
  | [] => None
  | ds => Some (sg * digits_value radix ds)
  end.

(** The exponent part [e[+-]digits] of a decimal literal; it is consumed
    only when a digit follows. *)
Definition take_exponent (s : string) : Z :=
  match s with
  | String c r =>
      if (code c =? 101) || (code c =? 69) then
        let (sg, r') := take_sign r in
        match fst (span is_digit r') with
        | [] => 0
        | ds => sg * digits_value 10 ds
        end
      else 0
  | EmptyString => 0
  end.

(** [Number.parseFloat(s)]: leading white space, then the longest prefix
    that is a decimal literal (sign, digits, fraction, exponent); [None] is
    [NaN].  The value is the exact rational denoted by the literal. *)
Definition parseFloat (s : string) : number :=
  let (sg, r) := take_sign (trim_start s) in
  let (ip, r1) := span is_digit r in
  let (fp, r2) :=
    match r1 with
    | String "."%char r1' => span is_digit r1'
    | _ => ([], r1)
    end in
  match ip, fp with
  | [], [] => None
  | _, _ =>
      let mant := sg * digits_value 10 (ip ++ fp) in
      let ex := take_exponent r2 - Z.of_nat (List.length fp) in
      Some (inject_Z mant * pow10 ex)%Q
  end.

(** ** Regular expressions of the route *)

(** A pattern is a sequence of literals and white-space runs; no literal of
    the route starts with a white-space character, so the runs are matched
    greedily. *)
Inductive item : Type :=
| Lit (s : string)      (* the characters of [s] *)
| Spaces0               (* [\s*] *)
| Spaces1.              (* [\s+] *)

Fixpoint strip_prefix (p s : string) : option string :=
  match p, s with
  | EmptyString, _ => Some s
  | String a p', String b s' => if Ascii.eqb a b then strip_prefix p' s' else None
  | String _ _, EmptyString => None
  end.

Fixpoint match_here (pat : list item) (s : string) : bool :=
  match pat with
  | [] => true
  | Lit l :: pat' =>
      match strip_prefix l s with
      | Some r => match_here pat' r
      | None => false
      end
  | Spaces0 :: pat' => match_here pat' (trim_start s)
  | Spaces1 :: pat' =>
      match s with
      | String c r => if is_space c then match_here pat' (trim_start r) else false
      | EmptyString => false
      end
  end.

(** [/pat/.test(s)]: a match at some position. *)
Fixpoint regex_test (pat : list item) (s : string) : bool :=
  match_here pat s ||
  match s with
  | String _ r => regex_test pat r
  | EmptyString => false
  end.

(** [/pat/i.test(s)] for a pattern written in lower case. *)
Definition regex_test_i (pat : list item) (s : string) : bool :=
  regex_test pat (toLowerCase s).

(** [/^0x[a-fA-F0-9]{40}$/.test(s)] *)
Definition is_address (s : string) : bool :=
  match s with
  | String "0"%char (String "x"%char r) =>
      (Nat.eqb (String.length r) 40) && forallb is_hex_digit (list_ascii_of_string r)
  | _ => false
  end.

(** ** Promises *)

Inductive PromiseSettledResult (A : Type) : Type :=
| fulfilled (value : A)
| rejected.

Arguments fulfilled {A} value.
Arguments rejected {A}.

End Js.

(* ================================================================== *)
(** * The analysis route *)
(* ================================================================== *)

Module Route.

Import Js.
Open Scope string_scope.
Open Scope Z_scope.

Fixpoint list_sum_Z (l : list Z) : Z :=
  match l with
  | [] => 0
  | x :: r => x + list_sum_Z r
  end.

(** ** Data model (the interfaces of the route) *)

Record TokenMetadata : Type := {
  name : string;
  symbol : string;
  totalSupply : string;
  decimals : option Z;          (* [None] is [NaN] *)
  contractAddress : string
}.

Record MarketData : Type := {
  price : Q;
  marketCap : Q;
  volume24h : Q;
  priceChange24h : Q;
  circulatingSupply : Q;
  md_totalSupply : Q;
  maxSupply : option Q;
  ath : Q;
  athChangePercentage : Q;
  atl : Q;
  atlChangePercentage : Q
}.

Record SecurityAnalysis : Type := {
  isVerified : bool;
  hasProxyContract : bool;
  hasMintFunction : bool;
  hasPauseFunction : bool;
  hasBlacklistFunction : bool;
  hasOwnershipRenounced : bool;
  rugPullRisk : Z
}.

Record HolderAnalysis : Type := {
  totalHolders : Z;
  top10HoldersPercentage : number;
  creatorPercentage : number;
  distributionScore : Q
}.

Inductive Severity : Type := low | medium | high | critical.

Record RiskFactor : Type := {
  category : string;
  severity : Severity;
  description : string;
  impact : Z
}.

Inductive RiskLevel : Type := VeryLow | Low | Medium | High | VeryHigh.

Record ComprehensiveAnalysis : Type := {
  tokenData : TokenMetadata;
  marketData : option MarketData;
  securityAnalysis : SecurityAnalysis;
  holderAnalysis : HolderAnalysis;
  riskFactors : list RiskFactor;
  overallRiskScore : Z;
  riskLevel : RiskLevel;
  recommendation : string
}.

Definition Severity_eqb (a b : Severity) : bool :=
  match a, b with
  | low, low | medium, medium | high, high | critical, critical => true
  | _, _ => false
  end.

Definition RiskLevel_eqb (a b : RiskLevel) : bool :=
  match a, b with
  | VeryLow, VeryLow | Low, Low | Medium, Medium | High, High
  | VeryHigh, VeryHigh => true
  | _, _ => false
  end.

(** The position of a tier in the order Very Low < Low < Medium < High <
    Very High. *)
Definition tier_rank (l : RiskLevel) : Z :=
  match l with
  | VeryLow => 0 | Low => 1 | Medium => 2 | High => 3 | VeryHigh => 4
  end.

(** ** The allowlist *)

Definition BLUECHIP_WHITELIST : list string :=
  [ "0xdac17f958d2ee523a2206206994597c13d831ec7";
    "0xa0b86991c6218b36c1d19d4a2e9eb0ce3606eb48";
    toLowerCase "0xc02aaA39b223FE8D0A0e5C4F27eAD9083C756Cc2";
    "0x514910771af9ca656af840dff83e8264ecf986ca" ].

Definition isBluechipToken (address : string) : bool :=
  includes BLUECHIP_WHITELIST (toLowerCase address).

(** ** Default data functions *)

Definition getDefaultTokenData (address : string) : TokenMetadata :=
  {| name := "Unknown Token";
     symbol := "UNKNOWN";
     totalSupply := "0";
     decimals := Some 18;
     contractAddress := address |}.

Definition getDefaultSecurityAnalysis : SecurityAnalysis :=
  {| isVerified := false;
     hasProxyContract := false;
     hasMintFunction := false;
     hasPauseFunction := false;
     hasBlacklistFunction := false;
     hasOwnershipRenounced := false;
     rugPullRisk := 50 |}.

Definition getDefaultHolderAnalysis : HolderAnalysis :=
  {| totalHolders := 0;
     top10HoldersPercentage := Some 100%Q;
     creatorPercentage := Some 100%Q;
     distributionScore := 0%Q |}.

(** ** Scorer *)

Definition calculateOverallRiskScore (factors : list RiskFactor) : Z :=
  let totalImpact := fold_left (fun sum factor => sum + impact factor) factors 0 in
  Z.min totalImpact 100.

Definition determineRiskLevel (score : Z) : RiskLevel :=
  if score <=? 10 then VeryLow
  else if score <=? 25 then Low
  else if score <=? 50 then Medium
  else if score <=? 75 then High
  else VeryHigh.

Definition msg_avoid : string :=
  "❌ AVOID: This token has critical security issues. Do not invest.".
Definition msg_high_risk : string :=
  "🚨 HIGH RISK: This token has multiple serious red flags. Extreme caution advised.".
Definition msg_caution : string :=
  "⚠️ CAUTION: This token has significant risks. Only invest what you can afford to lose.".
Definition msg_moderate : string :=
  "📊 MODERATE: This token has some risks but may be acceptable for experienced investors.".
Definition msg_low_risk : string :=
  "✅ LOW RISK: This token appears relatively safe but always DYOR.".
Definition msg_very_low_risk : string :=
  "🌟 VERY LOW RISK: This token shows good fundamentals and security practices.".
Definition msg_bluechip : string :=
  "🌟 This is a well-known, established token. No major risks detected.".

Definition generateRecommendation (analysis : ComprehensiveAnalysis) : string :=
  let riskLevel := riskLevel analysis in
  let riskFactors := riskFactors analysis in
  let criticalRisks := filter (fun f => Severity_eqb (severity f) critical) riskFactors in
  let highRisks := filter (fun f => Severity_eqb (severity f) high) riskFactors in
  if (0 <? Z.of_nat (List.length criticalRisks)) then msg_avoid
  else if RiskLevel_eqb riskLevel VeryHigh || (3 <=? Z.of_nat (List.length highRisks))
  then msg_high_risk
  else if RiskLevel_eqb riskLevel High then msg_caution
  else if RiskLevel_eqb riskLevel Medium then msg_moderate
  else if RiskLevel_eqb riskLevel Low then msg_low_risk
  else msg_very_low_risk.

(** ** Risk-factor deriver *)

Definition factor (c : string) (s : Severity) (d : string) (i : Z) : RiskFactor :=
  {| category := c; severity := s; description := d; impact := i |}.

(** [if (cond) riskFactors.push(f)]: the factors pushed by one guarded
    statement. *)
Definition push_if (cond : bool) (f : RiskFactor) : list RiskFactor :=
  if cond then [f] else [].

Definition securityFactors (sa : SecurityAnalysis) : list RiskFactor :=
  push_if (negb (isVerified sa))
    (factor "Security" high "Contract source code is not verified on Etherscan" 25)
  ++ push_if (hasMintFunction sa)
    (factor "Security" medium "Contract has mint function - supply can be increased" 15)
  ++ push_if (hasBlacklistFunction sa)
    (factor "Security" high "Contract can blacklist addresses from trading" 25)
  ++ push_if (hasPauseFunction sa)
    (factor "Security" medium "Contract can be paused, stopping all transfers" 15)
  ++ push_if (hasProxyContract sa)
    (factor "Security" medium "Proxy contract - logic can be upgraded" 20).

Definition marketFactors (md : option MarketData) : list RiskFactor :=
  match md with
  | Some m =>
      push_if (Qlt_bool (volume24h m) 10000)
        (factor "Market" medium "Very low trading volume (< $10,000 daily)" 15)
      ++ push_if (Qlt_bool (marketCap m) 100000)
        (factor "Market" medium "Very low market cap (< $100,000)" 10)
      ++ push_if (Qlt_bool (priceChange24h m) (-50))
        (factor "Market" high "Severe price drop (>50%) in last 24 hours" 20)
  | None => []
  end.

Definition holderFactors (ha : HolderAnalysis) : list RiskFactor :=
  if 0 <? totalHolders ha then
    push_if (num_gt (top10HoldersPercentage ha) 80)
      (factor "Distribution" high "Top 10 holders control more than 80% of supply" 25)
    ++ push_if (num_gt (creatorPercentage ha) 50)
      (factor "Distribution" critical "Creator/deployer holds more than 50% of total supply" 30)
    ++ push_if (totalHolders ha <? 100)
      (factor "Distribution" medium "Very few token holders (< 100)" 10)
  else [].

Definition metadataFactors (td : TokenMetadata) : list RiskFactor :=
  push_if (String.eqb (name td) "Unknown" || String.eqb (symbol td) "UNKNOWN")
    (factor "Metadata" medium "Missing or invalid token name/symbol" 10).

(** Truthiness of [tokenData.decimals]: [0] and [NaN] are falsy. *)
Definition truthy_decimals (d : option Z) : bool :=
  match d with Some z => negb (z =? 0) | None => false end.

Definition tokenomics_factor : RiskFactor :=
  factor "Tokenomics" medium "Extremely large total supply (>1 trillion tokens)" 15.

Definition tokenomicsFactors (td : TokenMetadata) : list RiskFactor :=
  if truthy_string (totalSupply td) && truthy_decimals (decimals td) then
    match decimals td with
    | Some d =>
        let supply := num_div (parseFloat (totalSupply td)) (Some (pow10 d)) in
        push_if (num_gt supply (pow10 12)) tokenomics_factor
    | None => []
    end
  else [].

Definition identifyRiskFactorsFiltered (analysis : ComprehensiveAnalysis)
  : list RiskFactor :=
  securityFactors (securityAnalysis analysis)
  ++ marketFactors (marketData analysis)
  ++ holderFactors (holderAnalysis analysis)
  ++ metadataFactors (tokenData analysis)
  ++ tokenomicsFactors (tokenData analysis).

(** ** Gini distribution scorer *)

Record Holder : Type := {
  TokenHolderAddress : string;
  TokenHolderQuantity : option string   (* [None]: the field is absent *)
}.

(** [Number.parseFloat(h.TokenHolderQuantity || "0")] *)
Definition quantity (h : Holder) : number :=
  parseFloat (or_string (TokenHolderQuantity h) "0").

(** [.filter((amount) => !isNaN(amount) && amount > 0)]: the amounts kept
    are numbers, hence rationals. *)
Fixpoint keep_positive (amounts : list number) : list Q :=
  match amounts with
  | [] => []
  | a :: rest =>
      match a with
      | Some x =>
          if negb (isNaN a) && num_gt a 0 then x :: keep_positive rest
          else keep_positive rest
      | None => keep_positive rest
      end
  end.

(** [.sort((a, b) => a - b)]: a stable ascending sort. *)
Fixpoint insert_sorted (x : Q) (l : list Q) : list Q :=
  match l with
  | [] => [x]
  | y :: l' => if Qle_bool x y then x :: l else y :: insert_sorted x l'
  end.

Fixpoint sort_ascending (l : list Q) : list Q :=
  match l with
  | [] => []
  | x :: l' => insert_sorted x (sort_ascending l')
  end.

(** The state of the [for] loop: the index [i], [sum] and [weightedSum]. *)
Record LoopState : Type := {
  loop_i : Z;
  loop_sum : Q;
  loop_weightedSum : Q
}.

Definition loop_body (st : LoopState) (x : Q) : LoopState :=
  {| loop_i := loop_i st + 1;
     loop_sum := (loop_sum st + x)%Q;
     loop_weightedSum := (loop_weightedSum st + inject_Z (loop_i st + 1) * x)%Q |}.

Definition run_loop (sortedHoldings : list Q) : LoopState :=
  fold_left loop_body sortedHoldings
    {| loop_i := 0; loop_sum := 0%Q; loop_weightedSum := 0%Q |}.

Definition calculateDistributionScore (holders : list Holder) (totalSupply : number) : Q :=
  if (Z.of_nat (List.length holders) =? 0) || num_is_zero totalSupply then 0%Q
  else
    let sortedHoldings := sort_ascending (keep_positive (map quantity holders)) in
    if Z.of_nat (List.length sortedHoldings) =? 0 then 0%Q
    else
      let st := run_loop sortedHoldings in
      let sum := loop_sum st in
      let weightedSum := loop_weightedSum st in
      if Qeq_bool sum 0 then 0%Q
      else
        let n := inject_Z (Z.of_nat (List.length sortedHoldings)) in
        let gini := ((2 * weightedSum) / (n * sum) - (n + 1) / n)%Q in
        Math_max 0 (Math_min 100 ((1 - gini) * 100)%Q).

(** [holders.reduce((sum, holder) => sum + parseFloat(...), 0)] *)
Definition sum_quantities (holders : list Holder) : number :=
  fold_left (fun sum holder => num_add sum (quantity holder)) holders (Some 0%Q).

(** ** Rug-pull risk *)

Definition calculateRugPullRisk (security : SecurityAnalysis) : Z :=
  let risk := 0 in
  let risk := if negb (isVerified security) then risk + 25 else risk in
  let risk := if hasMintFunction security then risk + 15 else risk in
  let risk := if hasBlacklistFunction security then risk + 25 else risk in
  let risk := if hasPauseFunction security then risk + 10 else risk in
  let risk := if hasProxyContract security then risk + 15 else risk in
  let risk := if negb (hasOwnershipRenounced security) then risk + 10 else risk in
  Z.min risk 100.

(** ** Source adapters *)

(** What one contract read answers: [fetch] throws, the response is not
    [ok], or it is [ok] with the extracted
    [result?.data || result?.[0] || result?.value || result?.toString() || null]. *)
Inductive CallFetch : Type :=
| CallThrows
| CallNotOk
| CallOk (result : option string).

Definition callContractMethod (f : CallFetch) : PromiseSettledResult (option string) :=
  match f with
  | CallOk result => fulfilled result
  | CallNotOk => fulfilled None
  | CallThrows => fulfilled None          (* caught and logged *)
  end.

(** The fields of the market provider's answer read by the adapter;
    [None] when the optional chain ends in [undefined] or [null]. *)
Record CoinData : Type := {
  cd_current_price : option Q;
  cd_market_cap : option Q;
  cd_total_volume : option Q;
  cd_price_change_percentage_24h : option Q;
  cd_circulating_supply : option Q;
  cd_total_supply : option Q;
  cd_max_supply : option Q;
  cd_ath : option Q;
  cd_ath_change_percentage : option Q;
  cd_atl : option Q;
  cd_atl_change_percentage : option Q
}.

Inductive MarketFetch : Type :=
| MarketThrows
| MarketNotOk
| MarketOk (coinData : CoinData).

(** [v || 0] *)
Definition or_zero (v : option Q) : Q :=
  match v with
  | Some q => if Qeq_bool q 0 then 0%Q else q
  | None => 0%Q
  end.

(** [v || null] *)
Definition or_null (v : option Q) : option Q :=
  match v with
  | Some q => if Qeq_bool q 0 then None else Some q
  | None => None
  end.

(** The answer of the explorer's source-code endpoint: [sourceCode] is
    [verificationData.result?.[0]?.SourceCode || ""]. *)
Inductive SecurityFetch : Type :=
| SecurityThrows
| SecurityNotOk
| SecurityOk (sourceCode : string).

(** The answer of the explorer's holder-list endpoint; [hd_result] is
    [None] when [result] is missing or not an array. *)
Record HoldersData : Type := {
  hd_status : string;
  hd_result : option (list Holder)
}.

Inductive HolderFetch : Type :=
| HolderThrows
| HolderNotOk
| HolderOk (holdersData : HoldersData).

(** What the network answers during one request. *)
Record World : Type := {
  w_name : CallFetch;
  w_symbol : CallFetch;
  w_decimals : CallFetch;
  w_totalSupply : CallFetch;
  w_market : MarketFetch;
  w_security : SecurityFetch;
  w_holders : HolderFetch
}.

Definition getTokenMetadata (address : string) (w : World)
  : PromiseSettledResult TokenMetadata :=
  let name := callContractMethod (w_name w) in
  let symbol := callContractMethod (w_symbol w) in
  let decimals := callContractMethod (w_decimals w) in
  let totalSupply := callContractMethod (w_totalSupply w) in
  fulfilled
    {| name := match name with
               | fulfilled value => or_string value "Unknown"
               | rejected => "Unknown"
               end;
       symbol := match symbol with
                 | fulfilled value => or_string value "UNKNOWN"
                 | rejected => "UNKNOWN"
                 end;
       decimals := match decimals with
                   | fulfilled value => parseInt (or_string value "18")
                   | rejected => Some 18
                   end;
       totalSupply := match totalSupply with
                      | fulfilled value => or_string value "0"
                      | rejected => "0"
                      end;
       contractAddress := address |}.

Definition getMarketData (w : World) : PromiseSettledResult (option MarketData) :=
  match w_market w with
  | MarketNotOk => fulfilled None
  | MarketThrows => fulfilled None        (* caught and logged *)
  | MarketOk coinData =>
      fulfilled (Some
        {| price := or_zero (cd_current_price coinData);
           marketCap := or_zero (cd_market_cap coinData);
           volume24h := or_zero (cd_total_volume coinData);
           priceChange24h := or_zero (cd_price_change_percentage_24h coinData);
           circulatingSupply := or_zero (cd_circulating_supply coinData);
           md_totalSupply := or_zero (cd_total_supply coinData);
           maxSupply := or_null (cd_max_supply coinData);
           ath := or_zero (cd_ath coinData);
           athChangePercentage := or_zero (cd_ath_change_percentage coinData);
           atl := or_zero (cd_atl coinData);
           atlChangePercentage := or_zero (cd_atl_change_percentage coinData) |})
  end.

Definition re_function (fname : string) : list item :=
  [Lit "function"; Spaces1; Lit fname; Spaces0; Lit "("].

(** The profile after the source-code scan, before [rugPullRisk] is
    computed. *)
Definition scanSource (sourceCode : string) : SecurityAnalysis :=
  let verified := negb (String.eqb sourceCode "") in
  if truthy_string sourceCode then
    {| isVerified := verified;
       hasMintFunction :=
         regex_test (re_function "mint") sourceCode
         || regex_test [Lit ".mint"; Spaces0; Lit "("] sourceCode;
       hasPauseFunction :=
         regex_test (re_function "pause") sourceCode
         || regex_test [Lit "Pausable"] sourceCode;
       hasBlacklistFunction :=
         regex_test_i [Lit "blacklist"] sourceCode
         || regex_test (re_function "blacklist") sourceCode;
       hasProxyContract :=
         regex_test [Lit "Proxy"] sourceCode
         || regex_test_i [Lit "upgradeable"] sourceCode;
       hasOwnershipRenounced :=
         regex_test_i [Lit "renounceownership"] sourceCode
         && regex_test [Lit "onlyOwner"] sourceCode;
       rugPullRisk := 0 |}
  else
    {| isVerified := verified;
       hasProxyContract := false;
       hasMintFunction := false;
       hasPauseFunction := false;
       hasBlacklistFunction := false;
       hasOwnershipRenounced := false;
       rugPullRisk := 0 |}.

Definition set_rugPullRisk (a : SecurityAnalysis) (r : Z) : SecurityAnalysis :=
  {| isVerified := isVerified a;
     hasProxyContract := hasProxyContract a;
     hasMintFunction := hasMintFunction a;
     hasPauseFunction := hasPauseFunction a;
     hasBlacklistFunction := hasBlacklistFunction a;
     hasOwnershipRenounced := hasOwnershipRenounced a;
     rugPullRisk := r |}.

Definition performSecurityAnalysis (w : World) : PromiseSettledResult SecurityAnalysis :=
  let analysis :=
    {| isVerified := false;
       hasProxyContract := false;
       hasMintFunction := false;
       hasPauseFunction := false;
       hasBlacklistFunction := false;
       hasOwnershipRenounced := false;
       rugPullRisk := 0 |} in
  match w_security w with
  | SecurityThrows => fulfilled analysis  (* caught: the risk is not computed *)
  | SecurityNotOk =>
      fulfilled (set_rugPullRisk analysis (calculateRugPullRisk analysis))
  | SecurityOk sourceCode =>
      let analysis := scanSource sourceCode in
      fulfilled (set_rugPullRisk analysis (calculateRugPullRisk analysis))
  end.

Definition analyzeHolderDistribution (w : World) : PromiseSettledResult HolderAnalysis :=
  match w_holders w with
  | HolderOk holdersData =>
      match String.eqb (hd_status holdersData) "1", hd_result holdersData with
      | true, Some holders =>
          if 0 <? Z.of_nat (List.length holders) then
            let totalSupplyFromHolders := sum_quantities holders in
            let top10Supply := sum_quantities (firstn 10 holders) in
            let creatorBalance :=
              match holders with
              | h :: _ => quantity h
              | [] => parseFloat "0"
              end in
            fulfilled
              {| totalHolders := Z.of_nat (List.length holders);
                 top10HoldersPercentage :=
                   if num_gt totalSupplyFromHolders 0
                   then num_mul (num_div top10Supply totalSupplyFromHolders) (Some 100%Q)
                   else Some 100%Q;
                 creatorPercentage :=
                   if num_gt totalSupplyFromHolders 0
                   then num_mul (num_div creatorBalance totalSupplyFromHolders) (Some 100%Q)
                   else Some 100%Q;
                 distributionScore :=
                   calculateDistributionScore holders totalSupplyFromHolders |}
          else fulfilled getDefaultHolderAnalysis
      | _, _ => fulfilled getDefaultHolderAnalysis   (* no holder data *)
      end
  | HolderNotOk => fulfilled getDefaultHolderAnalysis
  | HolderThrows => fulfilled getDefaultHolderAnalysis   (* caught and logged *)
  end.

(** ** The handler *)

(** The body of the request: [request.json()] rejects, or it gives an
    object whose [contractAddress] may be absent. *)
Inductive Request : Type :=
| BadBody
| Body (contractAddress : option string).

Inductive Response : Type :=
| Json (analysis : ComprehensiveAnalysis)
| ErrorJson (error : string) (status : Z).

Definition set_riskFactors (a : ComprehensiveAnalysis) (v : list RiskFactor)
  : ComprehensiveAnalysis :=
  {| tokenData := tokenData a; marketData := marketData a;
     securityAnalysis := securityAnalysis a; holderAnalysis := holderAnalysis a;
     riskFactors := v; overallRiskScore := overallRiskScore a;
     riskLevel := riskLevel a; recommendation := recommendation a |}.

Definition set_overallRiskScore (a : ComprehensiveAnalysis) (v : Z)
  : ComprehensiveAnalysis :=
  {| tokenData := tokenData a; marketData := marketData a;
     securityAnalysis := securityAnalysis a; holderAnalysis := holderAnalysis a;
     riskFactors := riskFactors a; overallRiskScore := v;
     riskLevel := riskLevel a; recommendation := recommendation a |}.

Definition set_riskLevel (a : ComprehensiveAnalysis) (v : RiskLevel)
  : ComprehensiveAnalysis :=
  {| tokenData := tokenData a; marketData := marketData a;
     securityAnalysis := securityAnalysis a; holderAnalysis := holderAnalysis a;
     riskFactors := riskFactors a; overallRiskScore := overallRiskScore a;
     riskLevel := v; recommendation := recommendation a |}.

Definition set_recommendation (a : ComprehensiveAnalysis) (v : string)
  : ComprehensiveAnalysis :=
  {| tokenData := tokenData a; marketData := marketData a;
     securityAnalysis := securityAnalysis a; holderAnalysis := holderAnalysis a;
     riskFactors := riskFactors a; overallRiskScore := overallRiskScore a;
     riskLevel := riskLevel a; recommendation := v |}.

Definition internal_error : Response :=
  ErrorJson "Failed to perform token analysis. Please try again." 500.

(** The bundle of the four resolved sources, before any factor is
    derived. *)
Definition bundle (td : TokenMetadata) (md : option MarketData)
    (sa : SecurityAnalysis) (ha : HolderAnalysis) : ComprehensiveAnalysis :=
  {| tokenData := td;
     marketData := md;
     securityAnalysis := sa;
     holderAnalysis := ha;
     riskFactors := [];
     overallRiskScore := 0;
     riskLevel := Medium;
     recommendation := "" |}.

(** The four assignments that complete a bundle. *)
Definition assess (analysis : ComprehensiveAnalysis) : ComprehensiveAnalysis :=
  let analysis := set_riskFactors analysis (identifyRiskFactorsFiltered analysis) in
  let analysis :=
    set_overallRiskScore analysis (calculateOverallRiskScore (riskFactors analysis)) in
  let analysis := set_riskLevel analysis (determineRiskLevel (overallRiskScore analysis)) in
  set_recommendation analysis (generateRecommendation analysis).

Definition POST (request : Request) (w : World) : Response :=
  match request with
  | BadBody => internal_error
  | Body None => ErrorJson "Contract address is required" 400
  | Body (Some contractAddress) =>
      if negb (truthy_string contractAddress) then
        ErrorJson "Contract address is required" 400
      else if negb (is_address contractAddress) then
        ErrorJson "Invalid Ethereum address format" 400
      else if isBluechipToken contractAddress then
        match getTokenMetadata contractAddress w with
        | fulfilled tokenData =>
            Json {| tokenData := tokenData;
                    marketData := None;
                    securityAnalysis := getDefaultSecurityAnalysis;
                    holderAnalysis := getDefaultHolderAnalysis;
                    riskFactors := [];
                    overallRiskScore := 0;
                    riskLevel := VeryLow;
                    recommendation := msg_bluechip |}
        | rejected => internal_error
        end
      else
        let tokenData := getTokenMetadata contractAddress w in
        let marketData := getMarketData w in
        let securityAnalysis := performSecurityAnalysis w in
        let holderAnalysis := analyzeHolderDistribution w in
        let resolvedTokenData :=
          match tokenData with
          | fulfilled value => value
          | rejected => getDefaultTokenData contractAddress
          end in
        let resolvedMarketData :=
          match marketData with fulfilled value => value | rejected => None end in
        let resolvedSecurityAnalysis :=
          match securityAnalysis with
          | fulfilled value => value
          | rejected => getDefaultSecurityAnalysis
          end in
        let resolvedHolderAnalysis :=
          match holderAnalysis with
          | fulfilled value => value
          | rejected => getDefaultHolderAnalysis
          end in
        Json (assess (bundle resolvedTokenData resolvedMarketData
                        resolvedSecurityAnalysis resolvedHolderAnalysis))
  end.

(** ** The statements of the specification, in its own words *)

(** Sum of the impacts of a factor list. *)
Definition sum_impacts (factors : list RiskFactor) : Z :=
  list_sum_Z (map impact factors).

(** The overall score the route gives a bundle of four resolved sources. *)
Definition score_of (td : TokenMetadata) (md : option MarketData)
    (sa : SecurityAnalysis) (ha : HolderAnalysis) : Z :=
  overallRiskScore (assess (bundle td md sa ha)).

(** Total of a list of balances. *)
Definition total (xs : list Q) : Q := fold_right Qplus 0%Q xs.

(** [Σ i·x_i] with ranks counted from [i]. *)
Fixpoint rank_weighted_from (i : Z) (xs : list Q) : Q :=
  match xs with
  | [] => 0%Q
  | x :: r => (inject_Z i * x + rank_weighted_from (i + 1) r)%Q
  end.

(** [gini = (2·Σ(i·x_i))/(n·Σx_i) − (n+1)/n] with 1-based ranks. *)
Definition gini (xs : list Q) : Q :=
  let n := inject_Z (Z.of_nat (List.length xs)) in
  ((2 * rank_weighted_from 1 xs) / (n * total xs) - (n + 1) / n)%Q.

(** [clamp(v, lo, hi)] *)
Definition clamp (v lo hi : Q) : Q :=
  if Qlt_bool v lo then lo else if Qlt_bool hi v then hi else v.

(** The health score the specification derives from a sorted list. *)
Definition health_score (sorted : list Q) : Q :=
  clamp ((1 - gini sorted) * 100)%Q 0%Q 100%Q.

(** The balances that are positive. *)
Definition positive_balances (xs : list Q) : list Q :=
  filter (fun x => Qlt_bool 0 x) xs.

(** [totalSupply / 10^decimals] *)
Definition normalized_supply (td : TokenMetadata) : number :=
  match decimals td with
  | Some d => num_div (parseFloat (totalSupply td)) (Some (pow10 d))
  | None => None
  end.

(** A holder record carrying a quantity string. *)
Definition holder_of (q : string) : Holder :=
  {| TokenHolderAddress := ""; TokenHolderQuantity := Some q |}.

(** The number of factors of a given severity. *)
Fixpoint count_severity (sv : Severity) (factors : list RiskFactor) : Z :=
  match factors with
  | [] => 0
  | f :: r =>
      (if Severity_eqb (severity f) sv then 1 else 0) + count_severity sv r
  end.

(** The allowlist as the source writes it, before any case conversion. *)
Definition allowlist_addresses : list string :=
  [ "0xdac17f958d2ee523a2206206994597c13d831ec7";
    "0xa0b86991c6218b36c1d19d4a2e9eb0ce3606eb48";
    "0xc02aaA39b223FE8D0A0e5C4F27eAD9083C756Cc2";
    "0x514910771af9ca656af840dff83e8264ecf986ca" ].

(** An address matches the allowlist when it equals one of its entries up
    to the case of the letters. *)
Definition matches_allowlist (address : string) : Prop :=
  exists entry, In entry allowlist_addresses
                /\ toLowerCase entry = toLowerCase address.

(** The six boolean flags of a profile. *)
Definition flags (sa : SecurityAnalysis) : list bool :=
  [ isVerified sa; hasProxyContract sa; hasMintFunction sa;
    hasPauseFunction sa; hasBlacklistFunction sa; hasOwnershipRenounced sa ].

(** The source lookup failed: the request threw, the response was not
    [ok], or no source code came back. *)
Definition lookup_failed (f : SecurityFetch) : Prop :=
  f = SecurityThrows \/ f = SecurityNotOk \/ f = SecurityOk "".

End Route.

(* ================================================================== *)
(** * Sample requests and network answers *)
(* ================================================================== *)

Module Samples.

Import Js Route.
Open Scope string_scope.
Open Scope Z_scope.

(** USDT, in the checksum case of the README. *)
Definition addr_usdt : string := "0xdAC17F958D2ee523a2206206994597C13D831ec7".

Definition addr_other : string := "0x1111111111111111111111111111111111111111".

(** Every provider is unreachable. *)
Definition world_down : World :=
  {| w_name := CallThrows; w_symbol := CallThrows; w_decimals := CallThrows;
     w_totalSupply := CallThrows; w_market := MarketThrows;
     w_security := SecurityThrows; w_holders := HolderThrows |}.

(** The explorer answers the source lookup with a non-[ok] response. *)
Definition world_no_source : World :=
  {| w_name := CallOk (Some "Token"); w_symbol := CallOk (Some "TKN");
     w_decimals := CallOk (Some "18"); w_totalSupply := CallOk (Some "1000000");
     w_market := MarketNotOk; w_security := SecurityNotOk;
     w_holders := HolderNotOk |}.

Definition clean_token : TokenMetadata :=
  {| name := "Token"; symbol := "TKN"; totalSupply := "1000000";
     decimals := Some 18; contractAddress := addr_other |}.

Definition clean_security : SecurityAnalysis :=
  {| isVerified := true; hasProxyContract := false; hasMintFunction := false;
     hasPauseFunction := false; hasBlacklistFunction := false;
     hasOwnershipRenounced := true; rugPullRisk := 0 |}.

(** Unverified, with a mint function. *)
Definition mint_security : SecurityAnalysis :=
  {| isVerified := false; hasProxyContract := false; hasMintFunction := true;
     hasPauseFunction := false; hasBlacklistFunction := false;
     hasOwnershipRenounced := false; rugPullRisk := 50 |}.

(** Forty holders, the creator owning 60% and the top ten 85%. *)
Definition concentrated_holders : HolderAnalysis :=
  {| totalHolders := 40; top10HoldersPercentage := Some 85%Q;
     creatorPercentage := Some 60%Q; distributionScore := 10%Q |}.

Definition healthy_holders : HolderAnalysis :=
  {| totalHolders := 5000; top10HoldersPercentage := Some 20%Q;
     creatorPercentage := Some 2%Q; distributionScore := 80%Q |}.

(** A listing with no volume and no market cap. *)
Definition dead_market : MarketData :=
  {| price := 0%Q; marketCap := 0%Q; volume24h := 0%Q; priceChange24h := 0%Q;
     circulatingSupply := 0%Q; md_totalSupply := 0%Q; maxSupply := None;
     ath := 0%Q; athChangePercentage := 0%Q; atl := 0%Q;
     atlChangePercentage := 0%Q |}.

(** Placeholder name and symbol, two trillion whole tokens. *)
Definition huge_unknown_token : TokenMetadata :=
  {| name := "Unknown"; symbol := "UNKNOWN";
     totalSupply := "2000000000000000000000000000000";
     decimals := Some 18; contractAddress := addr_other |}.

(** Two trillion indivisible tokens: [decimals = 0]. *)
Definition zero_decimals_token : TokenMetadata :=
  {| name := "Token"; symbol := "TKN"; totalSupply := "2000000000000";
     decimals := Some 0; contractAddress := addr_other |}.

(** The token reports [decimals = 0] and two trillion units; its source is
    verified and harmless, and it has no listing and no holder data. *)
Definition world_zero_decimals : World :=
  {| w_name := CallOk (Some "Token"); w_symbol := CallOk (Some "TKN");
     w_decimals := CallOk (Some "0");
     w_totalSupply := CallOk (Some "2000000000000");
     w_market := MarketNotOk;
     w_security := SecurityOk "contract Token { }";
     w_holders := HolderNotOk |}.

End Samples.

(* ================================================================== *)
(** * The red-flag route (the earlier handler of the same file) *)
(* ================================================================== *)

(** src/unnamed/part_002, lines 348-663.  [callContractMethod] of this
    handler rejects on a failed call; what it settles to is taken from the
    network, its decoding of the provider's answer is not modelled. *)

Module Legacy.

Import Js.
Open Scope string_scope.
Open Scope Z_scope.

Record TokenMetadata : Type := {
  name : string;
  symbol : string;
  totalSupply : string;
  decimals : option Z           (* [None] is [NaN] *)
}.

Record RedFlags : Type := {
  noNameOrSymbol : bool;
  hugeSupply : bool;
  fewTransfers : bool;
  fewHolders : bool;
  recentlyCreated : bool
}.

Inductive RiskLevel : Type := Low | Medium | High.

Definition level_rank (l : RiskLevel) : Z :=
  match l with Low => 0 | Medium => 1 | High => 2 end.

(** The transaction-history request: it throws, the response is not [ok],
    or it is [ok] with a body that is an array of the given length ([None]
    for a falsy body or one that is not an array). *)
Inductive TxFetch : Type :=
| TxThrows
| TxNotOk
| TxOk (transactions : option Z).

(** The balance request: it throws (or its body does not parse), the
    response is not [ok], or it is [ok]. *)
Inductive BalanceFetch : Type :=
| BalanceThrows
| BalanceNotOk
| BalanceOk.

Record World : Type := {
  w_name : PromiseSettledResult (option string);
  w_symbol : PromiseSettledResult (option string);
  w_decimals : PromiseSettledResult (option string);
  w_totalSupply : PromiseSettledResult (option string);
  w_transactions : TxFetch;
  w_balance : BalanceFetch
}.

(** [s.trim()] *)
Fixpoint trim_end (s : string) : string :=
  match s with
  | EmptyString => EmptyString
  | String c r =>
      match trim_end r with
      | EmptyString => if is_space c then EmptyString else String c EmptyString
      | r' => String c r'
      end
  end.

Definition trim (s : string) : string := trim_end (trim_start s).

(** [s.includes(sub)] *)
Definition str_includes (s sub : string) : bool := regex_test [Lit sub] s.

(** [d || 18] on a number: [0] and [NaN] are falsy. *)
Definition or_18 (d : option Z) : option Z :=
  match d with
  | Some z => if z =? 0 then Some 18 else Some z
  | None => Some 18
  end.

Definition getTokenMetadata (w : World) : TokenMetadata :=
  let name :=
    match w_name w with
    | fulfilled nameResult => or_string nameResult "Unknown Token"
    | rejected => "Unknown Token"
    end in
  let symbol :=
    match w_symbol w with
    | fulfilled symbolResult => or_string symbolResult "UNKNOWN"
    | rejected => "UNKNOWN"
    end in
  let decimals :=
    match w_decimals w with
    | fulfilled (Some decimalsResult) =>
        if truthy_string decimalsResult then parseInt decimalsResult else Some 18
    | fulfilled None => Some 18
    | rejected => Some 18
    end in
  let totalSupply :=
    match w_totalSupply w with
    | fulfilled totalSupplyResult => or_string totalSupplyResult "0"
    | rejected => "0"
    end in
  {| name := or_string (Some name) "Unknown Token";
     symbol := or_string (Some symbol) "UNKNOWN";
     totalSupply := or_string (Some totalSupply) "0";
     decimals := or_18 decimals |}.

Definition analyzeRedFlags (tokenData : TokenMetadata) (w : World) : RedFlags :=
  let noNameOrSymbol :=
    negb (truthy_string (name tokenData))
    || negb (truthy_string (symbol tokenData))
    || String.eqb (trim (name tokenData)) ""
    || String.eqb (trim (symbol tokenData)) ""
    || String.eqb (name tokenData) "Unknown Token"
    || String.eqb (symbol tokenData) "UNKNOWN" in
  let hugeSupply :=
    match decimals tokenData with
    | Some d =>
        num_gt (num_div (parseFloat (totalSupply tokenData)) (Some (pow10 d)))
          (pow10 12)
    | None => false
    end in
  let fewTransfers :=
    match w_transactions w with
    | TxOk (Some len) => len <? 5
    | TxOk None => true
    | TxNotOk => true
    | TxThrows => true
    end in
  let fewHolders :=
    match w_balance w with
    | BalanceOk => false
    | BalanceNotOk => true
    | BalanceThrows => true
    end in
  {| noNameOrSymbol := noNameOrSymbol;
     hugeSupply := hugeSupply;
     fewTransfers := fewTransfers;
     fewHolders := fewHolders;
     recentlyCreated := fewTransfers |}.

Definition calculateRiskScore (redFlags : RedFlags) : Z :=
  let score := 0 in
  let score := if noNameOrSymbol redFlags then score + 25 else score in
  let score := if hugeSupply redFlags then score + 20 else score in
  let score := if fewTransfers redFlags then score + 20 else score in
  let score := if fewHolders redFlags then score + 20 else score in
  let score := if recentlyCreated redFlags then score + 15 else score in
  Z.min score 100.

Definition getRiskLevel (score : Z) : RiskLevel :=
  if score <=? 30 then Low
  else if score <=? 70 then Medium
  else High.

Record Analysis : Type := {
  tokenData : TokenMetadata;
  redFlags : RedFlags;
  riskScore : Z;
  riskLevel : RiskLevel
}.

(** The body of the request: [request.json()] rejects with an error
    carrying a message, or it gives an object whose [contractAddress] may
    be absent. *)
Inductive Request : Type :=
| BadBody (message : string)
| Body (contractAddress : option string).

Inductive Response : Type :=
| Json (analysis : Analysis)
| ErrorJson (error : string) (status : Z).

(** The [catch] block of the handler. *)
Definition error_response (message : string) : Response :=
  if str_includes message "404" then
    ErrorJson "Token contract not found or not a valid ERC-20 token. Please verify the contract address." 404
  else if str_includes message "401" || str_includes message "403" then
    ErrorJson "API authentication failed. Please check your Tatum API key configuration." 401
  else if str_includes message "429" then
    ErrorJson "Rate limit exceeded. Please try again in a moment." 429
  else
    ErrorJson "Failed to analyze token. The contract may not be a standard ERC-20 token or there may be a network issue." 500.

Definition POST (request : Request) (w : World) : Response :=
  match request with
  | BadBody message => error_response message
  | Body None => ErrorJson "Contract address is required" 400
  | Body (Some contractAddress) =>
      if negb (truthy_string contractAddress) then
        ErrorJson "Contract address is required" 400
      else if negb (is_address contractAddress) then
        ErrorJson "Invalid Ethereum address format" 400
      else
        let tokenData := getTokenMetadata w in
        let redFlags := analyzeRedFlags tokenData w in
        let riskScore := calculateRiskScore redFlags in
        let riskLevel := getRiskLevel riskScore in
        Json {| tokenData := tokenData; redFlags := redFlags;
                riskScore := riskScore; riskLevel := riskLevel |}
  end.

End Legacy.

(* ================================================================== *)
(** * Notions used to state further properties of the analysis route *)
(* ================================================================== *)

Module Notions.

Import Js Route.
Open Scope string_scope.
Open Scope Z_scope.

(** The position of a category in the order of evaluation. *)
Definition category_rank (c : string) : Z :=
  if String.eqb c "Security" then 0
  else if String.eqb c "Market" then 1
  else if String.eqb c "Distribution" then 2
  else if String.eqb c "Metadata" then 3
  else if String.eqb c "Tokenomics" then 4
  else 5.

Definition category_le (f g : RiskFactor) : Prop :=
  category_rank (category f) <= category_rank (category g).

(** [1] when the condition holds, else [0]. *)
Definition indicator (b : bool) : Z := if b then 1 else 0.

(** A contract read that yields no usable string: the call throws, the
    response is not [ok], or the answer is null or empty. *)
Definition call_failed (f : CallFetch) : Prop :=
  f = CallThrows \/ f = CallNotOk \/ f = CallOk None \/ f = CallOk (Some "").

(** The holder endpoint gives no usable rows. *)
Definition no_holder_rows (f : HolderFetch) : Prop :=
  f = HolderThrows \/ f = HolderNotOk
  \/ exists d, f = HolderOk d
               /\ (hd_status d <> "1" \/ hd_result d = None \/ hd_result d = Some []).

Definition factor_unverified : RiskFactor :=
  factor "Security" high "Contract source code is not verified on Etherscan" 25.
Definition factor_blacklist : RiskFactor :=
  factor "Security" high "Contract can blacklist addresses from trading" 25.
Definition factor_low_volume : RiskFactor :=
  factor "Market" medium "Very low trading volume (< $10,000 daily)" 15.
Definition factor_low_cap : RiskFactor :=
  factor "Market" medium "Very low market cap (< $100,000)" 10.
Definition factor_creator : RiskFactor :=
  factor "Distribution" critical "Creator/deployer holds more than 50% of total supply" 30.
Definition factor_metadata : RiskFactor :=
  factor "Metadata" medium "Missing or invalid token name/symbol" 10.

(** A market answer in which every field is missing. *)
Definition empty_coin : CoinData :=
  {| cd_current_price := None; cd_market_cap := None; cd_total_volume := None;
     cd_price_change_percentage_24h := None; cd_circulating_supply := None;
     cd_total_supply := None; cd_max_supply := None; cd_ath := None;
     cd_ath_change_percentage := None; cd_atl := None;
     cd_atl_change_percentage := None |}.

(** A profile with other values in the two derived fields. *)
Definition set_distributionScore (ha : HolderAnalysis) (v : Q) : HolderAnalysis :=
  {| totalHolders := totalHolders ha;
     top10HoldersPercentage := top10HoldersPercentage ha;
     creatorPercentage := creatorPercentage ha;
     distributionScore := v |}.

Definition impact_in_range (f : RiskFactor) : Prop := 10 <= impact f <= 30.



(** The transaction history could not be read or shows fewer than five
    entries. *)
Definition few_transactions (f : Legacy.TxFetch) : Prop :=
  f = Legacy.TxThrows \/ f = Legacy.TxNotOk \/ f = Legacy.TxOk None
  \/ exists len, f = Legacy.TxOk (Some len) /\ len < 5.

(** A contract read of the red-flag route that yields no usable string. *)
Definition read_failed (r : PromiseSettledResult (option string)) : Prop :=
  r = rejected \/ r = fulfilled None \/ r = fulfilled (Some "").

(** Nothing can be read and no history is available. *)
Definition legacy_world_down : Legacy.World :=
  {| Legacy.w_name := rejected; Legacy.w_symbol := rejected;
     Legacy.w_decimals := rejected; Legacy.w_totalSupply := rejected;
     Legacy.w_transactions := Legacy.TxThrows;
     Legacy.w_balance := Legacy.BalanceThrows |}.

End Notions.

(* ================================================================== *)
(** * Properties *)
(* ================================================================== *)

Import Js Route.
Local Open Scope Z_scope.

(** ** Scorer *)

Lemma fold_left_impacts (factors : list RiskFactor) (acc : Z) :
  fold_left (fun sum factor => sum + impact factor) factors acc
  = acc + sum_impacts factors.
Proof.
  revert acc. unfold sum_impacts.
  induction factors as [|f r IH]; intros acc; simpl.
  - lia.
  - rewrite IH. lia.
Qed.

Lemma score_is_capped_sum (factors : list RiskFactor) :
  calculateOverallRiskScore factors = Z.min 100 (sum_impacts factors).
Proof.
  unfold calculateOverallRiskScore. rewrite fold_left_impacts. lia.
Qed.

Lemma getTokenMetadata_fulfils (address : string) (w : World) :
  exists td, getTokenMetadata address w = fulfilled td
             /\ contractAddress td = address.
Proof. unfold getTokenMetadata. eexists. split; reflexivity. Qed.

(** Every analysis the handler answers with is either the allowlist result
    or a completed bundle. *)
Lemma POST_Json_inv (request : Request) (w : World) (a : ComprehensiveAnalysis) :
  POST request w = Json a ->
  (riskFactors a = [] /\ overallRiskScore a = 0 /\ riskLevel a = VeryLow
   /\ recommendation a = msg_bluechip)
  \/ (exists b, a = assess b).
Proof.
  unfold POST. destruct request as [|[address|]]; try discriminate.
  destruct (negb (truthy_string address)); try discriminate.
  destruct (negb (is_address address)); try discriminate.
  destruct (isBluechipToken address).
  - destruct (getTokenMetadata address w); try discriminate.
    intros H. injection H as <-. left. repeat split.
  - intros H. injection H as <-. right. eexists. reflexivity.
Qed.

(** C1. For every list of risk factors the overall risk score is the sum of
    the impacts capped at 100, and every analysis the handler returns
    carries the capped sum of its own factor list as its score. *)
Theorem C1_overall_score_is_capped_sum :
  (forall factors : list RiskFactor,
      calculateOverallRiskScore factors = Z.min 100 (sum_impacts factors))
  /\ (forall (request : Request) (w : World) (a : ComprehensiveAnalysis),
        POST request w = Json a ->
        overallRiskScore a = Z.min 100 (sum_impacts (riskFactors a))).
Proof.
  split.
  - exact score_is_capped_sum.
  - intros request w a H.
    destruct (POST_Json_inv _ _ _ H) as [(Hf & Hs & _) | [b ->]].
    + rewrite Hf, Hs. reflexivity.
    + unfold assess. simpl. apply score_is_capped_sum.
Qed.

Lemma C1_witness :
  exists a, POST (Body (Some Samples.addr_other)) Samples.world_down = Json a
            /\ overallRiskScore a = Z.min 100 (sum_impacts (riskFactors a)).
Proof.
  eexists. split.
  - vm_compute. reflexivity.
  - apply (proj2 C1_overall_score_is_capped_sum
             (Body (Some Samples.addr_other)) Samples.world_down).
    vm_compute. reflexivity.
Defined.

(** C2. The tier is the step function of the score with inclusive upper
    bounds 10, 25, 50 and 75, and it never decreases when the score
    grows. *)
Theorem C2_tier_is_monotone_step_function :
  (forall s : Z,
      (s <= 10 -> determineRiskLevel s = VeryLow)
      /\ (10 < s <= 25 -> determineRiskLevel s = Low)
      /\ (25 < s <= 50 -> determineRiskLevel s = Medium)
      /\ (50 < s <= 75 -> determineRiskLevel s = High)
      /\ (75 < s -> determineRiskLevel s = VeryHigh))
  /\ (forall s1 s2 : Z,
        s1 <= s2 ->
        tier_rank (determineRiskLevel s1) <= tier_rank (determineRiskLevel s2)).
Proof.
  split.
  - intros s. unfold determineRiskLevel.
    repeat split; intros H;
      repeat (match goal with
              | |- context [?a <=? ?b] => destruct (Z.leb_spec a b)
              end; try lia; try reflexivity).
  - intros s1 s2 H. unfold determineRiskLevel.
    repeat (match goal with
            | |- context [?a <=? ?b] => destruct (Z.leb_spec a b)
            end; simpl; try lia).
Qed.

Lemma C2_witness :
  determineRiskLevel 25 = Low
  /\ tier_rank (determineRiskLevel 25) <= tier_rank (determineRiskLevel 26).
Proof.
  split.
  - apply (proj1 C2_tier_is_monotone_step_function 25). lia.
  - apply (proj2 C2_tier_is_monotone_step_function 25 26). lia.
Defined.

(** ** Allowlist short-circuit *)

Lemma is_address_truthy (address : string) :
  is_address address = true -> truthy_string address = true.
Proof. destruct address; [discriminate | reflexivity]. Qed.

Lemma matches_allowlist_bluechip (address : string) :
  matches_allowlist address -> isBluechipToken address = true.
Proof.
  intros (entry & Hin & Heq). unfold isBluechipToken. rewrite <- Heq.
  unfold allowlist_addresses in Hin. simpl in Hin.
  destruct Hin as [<- | [<- | [<- | [<- | []]]]]; vm_compute; reflexivity.
Qed.

(** C7. A well-formed address that matches the allowlist up to letter case
    gets the fixed verdict -- tier Very Low, score 0, no factor, the
    allowlist recommendation -- whatever the network answers. *)
Theorem C7_allowlisted_address_fixed_verdict
    (address : string) (w : World) :
  is_address address = true ->
  matches_allowlist address ->
  exists a, POST (Body (Some address)) w = Json a
            /\ riskLevel a = VeryLow
            /\ overallRiskScore a = 0
            /\ riskFactors a = []
            /\ recommendation a = msg_bluechip.
Proof.
  intros Hwf Hm. unfold POST.
  rewrite (is_address_truthy _ Hwf), Hwf, (matches_allowlist_bluechip _ Hm).
  cbn [negb]. destruct (getTokenMetadata_fulfils address w) as (td & -> & _).
  eexists. split; [reflexivity|]. repeat split.
Qed.

Lemma C7_witness :
  exists a, POST (Body (Some Samples.addr_usdt)) Samples.world_down = Json a
            /\ riskLevel a = VeryLow
            /\ overallRiskScore a = 0
            /\ riskFactors a = []
            /\ recommendation a = msg_bluechip.
Proof.
  apply (C7_allowlisted_address_fixed_verdict Samples.addr_usdt Samples.world_down).
  - vm_compute. reflexivity.
  - exists "0xdac17f958d2ee523a2206206994597c13d831ec7"%string. split.
    + simpl. left. reflexivity.
    + vm_compute. reflexivity.
Defined.

(** ** Recommendation cascade *)

Lemma filter_length_count (sv : Severity) (factors : list RiskFactor) :
  Z.of_nat (List.length (filter (fun f => Severity_eqb (severity f) sv) factors))
  = count_severity sv factors.
Proof.
  induction factors as [|f r IH]; simpl; [reflexivity|].
  destruct (Severity_eqb (severity f) sv); simpl List.length; lia.
Qed.

Lemma count_severity_nonneg (sv : Severity) (factors : list RiskFactor) :
  0 <= count_severity sv factors.
Proof.
  induction factors as [|f r IH]; simpl; [lia|].
  destruct (Severity_eqb (severity f) sv); lia.
Qed.

Lemma count_severity_pos (sv : Severity) (factors : list RiskFactor) :
  0 < count_severity sv factors <->
  exists f, In f factors /\ severity f = sv.
Proof.
  induction factors as [|f r IH]; simpl.
  - split; [lia | intros (f & [] & _)].
  - pose proof (count_severity_nonneg sv r) as Hr.
    destruct (Severity_eqb (severity f) sv) eqn:E.
    + split; [|lia]. intros _. exists f. split; [now left|].
      destruct (severity f), sv; simpl in E; congruence.
    + split.
      * intros H. destruct IH as [IH _].
        destruct IH as (g & Hg & Hs); [lia|]. exists g. split; [now right | exact Hs].
      * intros (g & [<- | Hg] & Hs).
        -- rewrite Hs in E. destruct sv; discriminate.
        -- assert (0 < count_severity sv r) by (apply IH; eauto). lia.
Qed.

(** C8. The recommendation follows the top-down, first-match cascade:
    a critical factor gives the avoid message whatever the tier; failing
    that, tier Very High or three high-severity factors give the high-risk
    message; failing that, the tier alone decides. *)
Theorem C8_recommendation_cascade (a : ComprehensiveAnalysis) :
  let has_critical := exists f, In f (riskFactors a) /\ severity f = critical in
  let many_high := 3 <= count_severity high (riskFactors a) in
  (has_critical -> generateRecommendation a = msg_avoid)
  /\ (~ has_critical -> riskLevel a = VeryHigh \/ many_high ->
      generateRecommendation a = msg_high_risk)
  /\ (~ has_critical -> ~ many_high -> riskLevel a = High ->
      generateRecommendation a = msg_caution)
  /\ (~ has_critical -> ~ many_high -> riskLevel a = Medium ->
      generateRecommendation a = msg_moderate)
  /\ (~ has_critical -> ~ many_high -> riskLevel a = Low ->
      generateRecommendation a = msg_low_risk)
  /\ (~ has_critical -> ~ many_high -> riskLevel a = VeryLow ->
      generateRecommendation a = msg_very_low_risk).
Proof.
  intros has_critical many_high. subst has_critical many_high.
  unfold generateRecommendation.
  rewrite !filter_length_count.
  pose proof (count_severity_pos critical (riskFactors a)) as Hc.
  destruct (Z.ltb_spec 0 (count_severity critical (riskFactors a))) as [Hp | Hn].
  - repeat split; try reflexivity; intros Hnc; exfalso; apply Hnc, Hc, Hp.
  - assert (Hno : ~ exists f, In f (riskFactors a) /\ severity f = critical)
      by (intros H; apply Hc in H; lia).
    destruct (Z.leb_spec 3 (count_severity high (riskFactors a))) as [Hh | Hh];
      rewrite ?orb_true_r, ?orb_false_r.
    + repeat split; try reflexivity; intros; solve [tauto | lia].
    + repeat split; intros;
        try match goal with H : riskLevel a = _ |- _ => rewrite H end;
        try reflexivity; try tauto.
      destruct H0 as [-> | ?]; [reflexivity | lia].
Qed.

(** An analysis the handler returns carries either the allowlist text or
    the cascade's choice for its own tier and factors. *)
Lemma POST_recommendation (request : Request) (w : World)
    (a : ComprehensiveAnalysis) :
  POST request w = Json a ->
  recommendation a = msg_bluechip
  \/ recommendation a = generateRecommendation a.
Proof.
  intros H. destruct (POST_Json_inv _ _ _ H) as [(_ & _ & _ & Hr) | [b ->]].
  - left. exact Hr.
  - right. reflexivity.
Qed.

Lemma C8_witness :
  generateRecommendation
    (set_riskFactors
       (bundle Samples.clean_token None Samples.clean_security
          Samples.concentrated_holders)
       (holderFactors Samples.concentrated_holders))
  = msg_avoid.
Proof.
  apply (proj1 (C8_recommendation_cascade _)).
  eexists. split; [vm_compute; right; left; reflexivity | reflexivity].
Defined.

(** ** Security adapter *)

(** C5 as stated fails: the default profile has every dangerous-function
    flag at [false], not at [true]. *)
Lemma C5_counterexample :
  ~ (hasProxyContract getDefaultSecurityAnalysis = true
     /\ hasMintFunction getDefaultSecurityAnalysis = true
     /\ hasPauseFunction getDefaultSecurityAnalysis = true
     /\ hasBlacklistFunction getDefaultSecurityAnalysis = true
     /\ isVerified getDefaultSecurityAnalysis = false
     /\ hasOwnershipRenounced getDefaultSecurityAnalysis = false).
Proof. simpl. intros (H & _). discriminate H. Qed.

(** C5, amended. When the source lookup fails, and in the default profile,
    all six boolean flags are [false]: [isVerified] and
    [hasOwnershipRenounced] take their pessimistic value, the four
    dangerous-function flags stay at "not detected". *)
Theorem C5_failed_lookup_flags_all_false :
  flags getDefaultSecurityAnalysis = [false; false; false; false; false; false]
  /\ (forall w : World,
        lookup_failed (w_security w) ->
        exists sa, performSecurityAnalysis w = fulfilled sa
                   /\ flags sa = [false; false; false; false; false; false]).
Proof.
  split; [reflexivity|].
  intros w [H | [H | H]]; unfold performSecurityAnalysis; rewrite H;
    eexists; split; reflexivity.
Qed.

Lemma C5_witness :
  exists sa, performSecurityAnalysis Samples.world_no_source = fulfilled sa
             /\ flags sa = [false; false; false; false; false; false].
Proof.
  apply (proj2 C5_failed_lookup_flags_all_false Samples.world_no_source).
  right. left. reflexivity.
Defined.

Lemma calculateRugPullRisk_set (a : SecurityAnalysis) (r : Z) :
  calculateRugPullRisk (set_rugPullRisk a r) = calculateRugPullRisk a.
Proof. reflexivity. Qed.

(** When the request itself throws, the risk is left at its initial 0
    although the flags of the returned profile derive 35. *)
Lemma security_throw_leaves_risk_unset (w : World) :
  w_security w = SecurityThrows ->
  exists sa, performSecurityAnalysis w = fulfilled sa
             /\ rugPullRisk sa = 0 /\ calculateRugPullRisk sa = 35.
Proof.
  intros H. unfold performSecurityAnalysis. rewrite H.
  eexists. split; [reflexivity|]. split; reflexivity.
Qed.

(** C10 as stated fails: the default profile carries 50 while its flags
    derive 35. *)
Lemma C10_counterexample :
  rugPullRisk getDefaultSecurityAnalysis
  <> calculateRugPullRisk getDefaultSecurityAnalysis.
Proof. vm_compute. discriminate. Qed.

(** C10, amended. Whenever the source lookup settles without throwing, the
    profile the adapter returns has [rugPullRisk] equal to the value derived
    from its own flags; the default profile carries the fixed value 50. *)
Theorem C10_settled_lookup_derives_rugPullRisk :
  (forall w : World,
      w_security w <> SecurityThrows ->
      exists sa, performSecurityAnalysis w = fulfilled sa
                 /\ rugPullRisk sa = calculateRugPullRisk sa)
  /\ rugPullRisk getDefaultSecurityAnalysis = 50.
Proof.
  split; [|reflexivity].
  intros w H. unfold performSecurityAnalysis.
  destruct (w_security w) as [| |sourceCode]; [congruence | |];
    eexists; (split; [reflexivity|]);
    rewrite calculateRugPullRisk_set; reflexivity.
Qed.

Lemma C10_witness :
  exists sa, performSecurityAnalysis Samples.world_zero_decimals = fulfilled sa
             /\ rugPullRisk sa = calculateRugPullRisk sa.
Proof.
  apply (proj1 C10_settled_lookup_derives_rugPullRisk Samples.world_zero_decimals).
  simpl. discriminate.
Defined.

(** ** Tokenomics rule *)

Lemma pow10_nonzero (d : Z) : Qeq_bool (pow10 d) 0 = false.
Proof.
  destruct (Qeq_bool (pow10 d) 0) eqn:E; [|reflexivity].
  apply Qeq_bool_eq in E.
  assert (H : (0 < pow10 d)%Q) by (apply Qpower_0_lt; reflexivity).
  rewrite E in H. discriminate H.
Qed.

(** With a non-zero [decimals] the rule fires as the table says. *)
Lemma tokenomics_fires_nonzero_decimals (a : ComprehensiveAnalysis) (d : Z) (x : Q) :
  decimals (tokenData a) = Some d ->
  d <> 0 ->
  parseFloat (totalSupply (tokenData a)) = Some x ->
  (pow10 12 < x / pow10 d)%Q ->
  In tokenomics_factor (identifyRiskFactorsFiltered a).
Proof.
  intros Hd Hnz Hx Hgt. unfold identifyRiskFactorsFiltered.
  do 4 (apply in_or_app; right).
  unfold tokenomicsFactors. rewrite Hd.
  assert (Ht : truthy_string (totalSupply (tokenData a)) = true).
  { destruct (totalSupply (tokenData a)); [discriminate Hx | reflexivity]. }
  assert (Hz : (d =? 0) = false) by (apply Z.eqb_neq; exact Hnz).
  rewrite Ht. unfold truthy_decimals. rewrite Hz. cbn [negb andb].
  rewrite Hx. unfold num_div. rewrite pow10_nonzero.
  unfold num_gt, Qlt_bool.
  destruct (Qle_bool (x / pow10 d) (pow10 12)) eqn:E.
  - apply Qle_bool_imp_le in E. exfalso. apply (Qlt_not_le _ _ Hgt E).
  - simpl. left. reflexivity.
Qed.

(** C9, at [decimals = 0]. Two trillion indivisible tokens have a normalized
    supply above 1e12, yet the rule is skipped, alone and in a whole
    request: the truthiness guard on [decimals] reads 0 as "absent". *)
Theorem C9_zero_decimals_skips_tokenomics :
  num_gt (normalized_supply Samples.zero_decimals_token) (pow10 12) = true
  /\ tokenomicsFactors Samples.zero_decimals_token = []
  /\ (forall td : TokenMetadata,
        decimals td = Some 0 -> tokenomicsFactors td = [])
  /\ (exists a,
        POST (Body (Some Samples.addr_other)) Samples.world_zero_decimals = Json a
        /\ tokenData a = Samples.zero_decimals_token
        /\ riskFactors a = []).
Proof.
  split; [vm_compute; reflexivity|].
  split; [vm_compute; reflexivity|].
  split.
  - intros td H. unfold tokenomicsFactors. rewrite H. simpl.
    rewrite andb_false_r. reflexivity.
  - eexists. split; [vm_compute; reflexivity|]. split; reflexivity.
Qed.

(** ** Defaults and the score *)

Lemma sum_impacts_app (l1 l2 : list RiskFactor) :
  sum_impacts (l1 ++ l2) = sum_impacts l1 + sum_impacts l2.
Proof.
  unfold sum_impacts. induction l1 as [|f r IH]; simpl; [reflexivity|].
  rewrite IH. lia.
Qed.

(** The score of a bundle is the capped sum of what each source
    contributes. *)
Lemma score_of_sources (td : TokenMetadata) (md : option MarketData)
    (sa : SecurityAnalysis) (ha : HolderAnalysis) :
  score_of td md sa ha
  = Z.min 100 (sum_impacts (securityFactors sa)
               + sum_impacts (marketFactors md)
               + sum_impacts (holderFactors ha)
               + sum_impacts (metadataFactors td ++ tokenomicsFactors td)).
Proof.
  unfold score_of, assess. simpl. rewrite score_is_capped_sum.
  unfold identifyRiskFactorsFiltered. simpl.
  rewrite !sum_impacts_app. f_equal. lia.
Qed.

Lemma sum_impacts_push_if (c : bool) (f : RiskFactor) :
  sum_impacts (push_if c f) = if c then impact f else 0.
Proof. destruct c; unfold sum_impacts; simpl; lia. Qed.

Lemma marketFactors_nonneg (md : option MarketData) :
  0 <= sum_impacts (marketFactors md).
Proof.
  destruct md as [m|]; simpl; [|unfold sum_impacts; simpl; lia].
  rewrite !sum_impacts_app, !sum_impacts_push_if.
  destruct (Qlt_bool (volume24h m) 10000), (Qlt_bool (marketCap m) 100000),
    (Qlt_bool (priceChange24h m) (-50)); simpl; lia.
Qed.

Lemma holderFactors_nonneg (ha : HolderAnalysis) :
  0 <= sum_impacts (holderFactors ha).
Proof.
  unfold holderFactors.
  destruct (0 <? totalHolders ha); [|unfold sum_impacts; simpl; lia].
  rewrite !sum_impacts_app, !sum_impacts_push_if.
  destruct (num_gt (top10HoldersPercentage ha) 80),
    (num_gt (creatorPercentage ha) 50), (totalHolders ha <? 100); simpl; lia.
Qed.

Lemma default_security_contribution :
  sum_impacts (securityFactors getDefaultSecurityAnalysis) = 25.
Proof. reflexivity. Qed.

Lemma default_holder_contribution :
  sum_impacts (holderFactors getDefaultHolderAnalysis) = 0.
Proof. reflexivity. Qed.

Lemma default_token_contribution (address : string) :
  sum_impacts (metadataFactors (getDefaultTokenData address)
               ++ tokenomicsFactors (getDefaultTokenData address)) = 10.
Proof. vm_compute. reflexivity. Qed.

(** C6 as stated fails for each of the four sources: the default lowers
    the score of a bundle whose actual data triggers more than the default
    does. *)
Lemma C6_counterexample :
  score_of Samples.clean_token None getDefaultSecurityAnalysis Samples.healthy_holders
  < score_of Samples.clean_token None Samples.mint_security Samples.healthy_holders
  /\ score_of Samples.clean_token None Samples.clean_security getDefaultHolderAnalysis
     < score_of Samples.clean_token None Samples.clean_security
         Samples.concentrated_holders
  /\ score_of Samples.clean_token None Samples.clean_security Samples.healthy_holders
     < score_of Samples.clean_token (Some Samples.dead_market)
         Samples.clean_security Samples.healthy_holders
  /\ score_of (getDefaultTokenData Samples.addr_other) None Samples.clean_security
       Samples.healthy_holders
     < score_of Samples.huge_unknown_token None Samples.clean_security
         Samples.healthy_holders.
Proof. vm_compute. repeat split. Qed.

(** C6, amended. A default stands for a fixed contribution: nothing for a
    null market snapshot and for the default holder profile, the single
    "not verified" factor (25) for the default security profile, the single
    metadata factor (10) for the placeholder metadata.  So replacing the
    market or the holder data by the default never raises the score, and
    replacing any source by its default does not lower the score whenever
    the factors of the actual data sum to at most the default's
    contribution. *)
Theorem C6_default_versus_actual
    (td : TokenMetadata) (md : option MarketData)
    (sa : SecurityAnalysis) (ha : HolderAnalysis) :
  score_of td None sa ha <= score_of td md sa ha
  /\ score_of td md sa getDefaultHolderAnalysis <= score_of td md sa ha
  /\ (sum_impacts (marketFactors md) <= 0 ->
      score_of td md sa ha <= score_of td None sa ha)
  /\ (sum_impacts (holderFactors ha) <= 0 ->
      score_of td md sa ha <= score_of td md sa getDefaultHolderAnalysis)
  /\ (sum_impacts (securityFactors sa) <= 25 ->
      score_of td md sa ha <= score_of td md getDefaultSecurityAnalysis ha)
  /\ (sum_impacts (metadataFactors td ++ tokenomicsFactors td) <= 10 ->
      score_of td md sa ha
      <= score_of (getDefaultTokenData (contractAddress td)) md sa ha).
Proof.
  rewrite !score_of_sources.
  rewrite default_security_contribution, default_holder_contribution,
    default_token_contribution.
  pose proof (marketFactors_nonneg md) as Hm.
  pose proof (holderFactors_nonneg ha) as Hh.
  change (sum_impacts (marketFactors None)) with 0.
  repeat split; intros; lia.
Qed.

Lemma C6_witness :
  score_of Samples.clean_token None Samples.clean_security Samples.healthy_holders
  <= score_of Samples.clean_token None getDefaultSecurityAnalysis
       Samples.healthy_holders.
Proof.
  apply (proj1 (proj2 (proj2 (proj2 (proj2
           (C6_default_versus_actual Samples.clean_token None
              Samples.clean_security Samples.healthy_holders)))))).
  vm_compute. discriminate.
Defined.

(** ** Gini distribution scorer *)

Local Open Scope Q_scope.

Lemma Qlt_bool_iff (x y : Q) : Qlt_bool x y = true <-> x < y.
Proof.
  unfold Qlt_bool. destruct (Qle_bool y x) eqn:E; simpl.
  - apply Qle_bool_iff in E. split; [discriminate|].
    intros H. exfalso. apply (Qlt_not_le _ _ H E).
  - split; [|reflexivity]. intros _. apply Qnot_le_lt.
    intros H. apply Qle_bool_iff in H. congruence.
Qed.

Lemma Qlt_bool_false (x y : Q) : Qlt_bool x y = false <-> y <= x.
Proof.
  unfold Qlt_bool. destruct (Qle_bool y x) eqn:E; simpl.
  - apply Qle_bool_iff in E. tauto.
  - split; [discriminate|]. intros H. apply Qle_bool_iff in H. congruence.
Qed.

(** The sort returns a sorted rearrangement of its input. *)

Lemma insert_sorted_perm (x : Q) (l : list Q) :
  Permutation (insert_sorted x l) (x :: l).
Proof.
  induction l as [|y l IH]; simpl; [reflexivity|].
  destruct (Qle_bool x y); [reflexivity|].
  rewrite IH. apply perm_swap.
Qed.

Lemma sort_ascending_perm (l : list Q) : Permutation (sort_ascending l) l.
Proof.
  induction l as [|x l IH]; simpl; [reflexivity|].
  rewrite insert_sorted_perm. now apply perm_skip.
Qed.

Lemma insert_sorted_sorted (x : Q) (l : list Q) :
  StronglySorted Qle l -> StronglySorted Qle (insert_sorted x l).
Proof.
  induction 1 as [|y l Hs IH Hall]; simpl.
  - constructor; constructor.
  - destruct (Qle_bool x y) eqn:E.
    + apply Qle_bool_iff in E. constructor.
      * now constructor.
      * constructor; [exact E|].
        eapply Forall_impl; [|exact Hall]. intros z Hz.
        eapply Qle_trans; eassumption.
    + constructor; [exact IH|].
      apply (Permutation_Forall (Permutation_sym (insert_sorted_perm x l))).
      constructor; [|exact Hall].
      apply Qlt_le_weak, Qlt_bool_iff. unfold Qlt_bool. now rewrite E.
Qed.

Lemma sort_ascending_sorted (l : list Q) : StronglySorted Qle (sort_ascending l).
Proof.
  induction l as [|x l IH]; simpl; [constructor|].
  now apply insert_sorted_sorted.
Qed.

Lemma total_perm (l1 l2 : list Q) :
  Permutation l1 l2 -> total l1 == total l2.
Proof.
  induction 1; simpl.
  - reflexivity.
  - now rewrite IHPermutation.
  - ring.
  - now rewrite IHPermutation1.
Qed.

(** The loop computes the total and the rank-weighted sum. *)

Lemma fold_loop_body (l : list Q) (st : LoopState) :
  let st' := fold_left loop_body l st in
  loop_sum st' == loop_sum st + total l
  /\ loop_weightedSum st'
     == loop_weightedSum st + rank_weighted_from (loop_i st + 1) l.
Proof.
  revert st. induction l as [|x l IH]; intros st; simpl.
  - split; ring.
  - destruct (IH (loop_body st x)) as [Hs Hw]. simpl in Hs, Hw.
    split; [rewrite Hs | rewrite Hw]; ring.
Qed.

Lemma run_loop_spec (l : list Q) :
  loop_sum (run_loop l) == total l
  /\ loop_weightedSum (run_loop l) == rank_weighted_from 1 l.
Proof.
  unfold run_loop.
  destruct (fold_loop_body l
              {| loop_i := 0; loop_sum := 0; loop_weightedSum := 0 |})
    as [Hs Hw].
  simpl in Hs, Hw. split; [rewrite Hs | rewrite Hw]; ring.
Qed.

(** [Math.max(0, Math.min(100, v))] is the clamp to [0, 100]. *)

Lemma max_min_is_clamp (v v' : Q) :
  v == v' -> Math_max 0 (Math_min 100 v) == clamp v' 0 100.
Proof.
  intros E. unfold Math_max, Math_min, clamp.
  destruct (Qle_bool 100 v) eqn:E1.
  - apply Qle_bool_iff in E1. change (Qle_bool 0 100) with true. cbv iota.
    destruct (Qlt_bool v' 0) eqn:E2; [apply Qlt_bool_iff in E2; lra|].
    destruct (Qlt_bool 100 v') eqn:E3; [reflexivity|].
    apply Qlt_bool_false in E3. lra.
  - assert (Hlt : v < 100).
    { apply Qlt_bool_iff. unfold Qlt_bool. now rewrite E1. }
    destruct (Qlt_bool v' 0) eqn:E2.
    + apply Qlt_bool_iff in E2.
      destruct (Qle_bool 0 v) eqn:E4; [apply Qle_bool_iff in E4; lra | reflexivity].
    + apply Qlt_bool_false in E2.
      destruct (Qle_bool 0 v) eqn:E4.
      * destruct (Qlt_bool 100 v') eqn:E3; [apply Qlt_bool_iff in E3; lra | exact E].
      * assert (v < 0) by (apply Qlt_bool_iff; unfold Qlt_bool; now rewrite E4).
        lra.
Qed.


(** What the filter keeps of a list of numbers that are all rationals. *)
Lemma keep_positive_Some (xs : list Q) :
  keep_positive (map Some xs) = positive_balances xs.
Proof.
  induction xs as [|x xs IH]; simpl; [reflexivity|].
  destruct (Qlt_bool 0 x); simpl; now rewrite IH.
Qed.

(** The caller's total is the total of the balances. *)
Lemma fold_quantities (holders : list Holder) (balances : list Q) (acc : Q) :
  map quantity holders = map Some balances ->
  exists t,
    fold_left (fun sum holder => num_add sum (quantity holder)) holders (Some acc)
    = Some t
    /\ t == acc + total balances.
Proof.
  revert balances acc.
  induction holders as [|h hs IH]; intros [|b bs] acc E; simpl in E;
    try discriminate.
  - exists acc. split; [reflexivity | simpl; ring].
  - injection E as Eh Et. simpl. rewrite Eh. simpl.
    destruct (IH bs (acc + b) Et) as (t & Ht & Hq).
    exists t. split; [exact Ht | rewrite Hq; ring].
Qed.

Lemma sum_quantities_total (holders : list Holder) (balances : list Q) :
  map quantity holders = map Some balances ->
  exists t, sum_quantities holders = Some t /\ t == total balances.
Proof.
  intros E. destruct (fold_quantities holders balances 0 E) as (t & Ht & Hq).
  exists t. split; [exact Ht | rewrite Hq; ring].
Qed.


(** Balances that are not positive add nothing to a non-negative total. *)
Lemma total_positive_balances (xs : list Q) :
  Forall (fun x => 0 <= x) xs -> total (positive_balances xs) == total xs.
Proof.
  induction 1 as [|x xs Hx _ IH]; simpl; [reflexivity|].
  destruct (Qlt_bool 0 x) eqn:E; simpl; rewrite IH; [reflexivity|].
  apply Qlt_bool_false in E. lra.
Qed.

Lemma positive_balances_pos (xs : list Q) :
  Forall (fun x => 0 < x) (positive_balances xs).
Proof.
  unfold positive_balances. apply Forall_forall. intros x Hx.
  apply filter_In in Hx. now apply Qlt_bool_iff.
Qed.

Lemma total_pos (xs : list Q) :
  Forall (fun x => 0 < x) xs -> xs <> [] -> 0 < total xs.
Proof.
  intros H. induction H as [|x xs Hx Hall IH]; intros Hne; [congruence|].
  simpl. destruct xs as [|y ys]; [simpl; lra|].
  assert (0 < total (y :: ys)) by (apply IH; discriminate). lra.
Qed.

(** The score on an input that reaches the formula. *)
Lemma score_by_formula (holders : list Holder) (totalSupply : number) :
  let sorted := sort_ascending (keep_positive (map quantity holders)) in
  holders <> [] ->
  num_is_zero totalSupply = false ->
  0 < total sorted ->
  calculateDistributionScore holders totalSupply == health_score sorted.
Proof.
  intros sorted Hne Hz Hpos. unfold calculateDistributionScore.
  destruct holders as [|h hs]; [congruence|].
  rewrite Hz. cbn [List.length orb].
  replace (Z.of_nat (S (List.length hs)) =? 0)%Z with false
    by (symmetry; apply Z.eqb_neq; lia).
  cbn [orb]. fold sorted.
  destruct (run_loop_spec sorted) as [Hs Hw].
  assert (Hlen : (Z.of_nat (List.length sorted) =? 0)%Z = false).
  { destruct sorted; [simpl in Hpos; lra | apply Z.eqb_neq; simpl List.length; lia]. }
  rewrite Hlen.
  assert (Hsum : Qeq_bool (loop_sum (run_loop sorted)) 0 = false).
  { destruct (Qeq_bool (loop_sum (run_loop sorted)) 0) eqn:E; [|reflexivity].
    apply Qeq_bool_eq in E. rewrite Hs in E. lra. }
  rewrite Hsum. unfold health_score.
  apply max_min_is_clamp. unfold gini. rewrite Hs, Hw. reflexivity.
Qed.






(** C4 as stated fails: a zero balance is dropped before the ranks are
    counted.  For the balances 0 and 1 the formula over the full sorted
    list gives 50, the code gives 100. *)
Lemma C4_counterexample :
  map quantity [holder_of "0"; holder_of "1"] = map Some [0; 1]
  /\ health_score (sort_ascending [0; 1]) == 50
  /\ calculateDistributionScore [holder_of "0"; holder_of "1"]
       (sum_quantities [holder_of "0"; holder_of "1"]) == 100
  /\ ~ calculateDistributionScore [holder_of "0"; holder_of "1"]
         (sum_quantities [holder_of "0"; holder_of "1"])
       == health_score (sort_ascending [0; 1]).
Proof.
  split; [vm_compute; reflexivity|].
  split; [vm_compute; reflexivity|].
  split; [vm_compute; reflexivity|].
  vm_compute. discriminate.
Qed.

(** C4, amended. For every list of non-negative holder balances the score
    is 0 when the list is empty, has no positive balance or sums to zero;
    otherwise it is [clamp((1 − gini) × 100, 0, 100)] with the Gini formula
    taken over the positive balances only, sorted ascending, with 1-based
    ranks and [n] the number of positive balances. *)
Theorem C4_distribution_score_over_positive_balances
    (holders : list Holder) (balances : list Q) :
  map quantity holders = map Some balances ->
  Forall (fun x => 0 <= x) balances ->
  (holders = [] \/ positive_balances balances = [] \/ total balances == 0 ->
   calculateDistributionScore holders (sum_quantities holders) == 0)
  /\ (positive_balances balances <> [] ->
      exists sorted,
        Permutation sorted (positive_balances balances)
        /\ StronglySorted Qle sorted
        /\ calculateDistributionScore holders (sum_quantities holders)
           == health_score sorted).
Proof.
  intros Hmap Hnn.
  destruct (sum_quantities_total holders balances Hmap) as (t & Ht & Hq).
  pose proof (total_positive_balances balances Hnn) as Htp.
  assert (Hdegenerate : positive_balances balances = [] ->
            calculateDistributionScore holders (sum_quantities holders) == 0).
  { intros Hp. unfold calculateDistributionScore.
    rewrite Hmap, keep_positive_Some, Hp. simpl.
    destruct (_ || _); reflexivity. }
  split.
  - intros [-> | [Hp | Hz]].
    + reflexivity.
    + now apply Hdegenerate.
    + apply Hdegenerate.
      destruct (positive_balances balances) as [|p ps] eqn:Ep; [reflexivity|].
      assert (0 < total (p :: ps)).
      { apply total_pos; [|discriminate].
        rewrite <- Ep. apply positive_balances_pos. }
      rewrite Htp in H. lra.
  - intros Hp. exists (sort_ascending (positive_balances balances)).
    split; [apply sort_ascending_perm|].
    split; [apply sort_ascending_sorted|].
    assert (Hpos : 0 < total (positive_balances balances))
      by (apply total_pos; [apply positive_balances_pos | exact Hp]).
    rewrite <- keep_positive_Some, <- Hmap.
    apply score_by_formula.
    + intros ->. simpl in Hmap. destruct balances; [|discriminate].
      now apply Hp.
    + rewrite Ht. simpl. destruct (Qeq_bool t 0) eqn:E; [|reflexivity].
      apply Qeq_bool_eq in E. lra.
    + rewrite Hmap, keep_positive_Some.
      rewrite (total_perm _ _ (sort_ascending_perm _)). exact Hpos.
Qed.

Lemma C4_witness :
  (total [0; 3; 1] == 0 ->
   calculateDistributionScore [holder_of "0"; holder_of "3"; holder_of "1"]
     (sum_quantities [holder_of "0"; holder_of "3"; holder_of "1"]) == 0)
  /\ exists sorted,
       Permutation sorted (positive_balances [0; 3; 1])
       /\ StronglySorted Qle sorted
       /\ calculateDistributionScore [holder_of "0"; holder_of "3"; holder_of "1"]
            (sum_quantities [holder_of "0"; holder_of "3"; holder_of "1"])
          == health_score sorted.
Proof.
  assert (Hmap : map quantity [holder_of "0"; holder_of "3"; holder_of "1"]
                 = map Some [0; 3; 1]) by (vm_compute; reflexivity).
  assert (Hnn : Forall (fun x => 0 <= x) [0; 3; 1])
    by (repeat constructor; discriminate).
  destruct (C4_distribution_score_over_positive_balances _ _ Hmap Hnn)
    as [Hzero Hformula].
  split.
  - intros Hz. apply Hzero. right. right. exact Hz.
  - apply Hformula. vm_compute. discriminate.
Defined.

(* ================================================================== *)
(** * Further properties of the analysis route *)
(* ================================================================== *)

Import Notions.
Local Open Scope Z_scope.

(** ** The handler answers every request *)

Lemma assess_tokenData (b : ComprehensiveAnalysis) :
  tokenData (assess b) = tokenData b.
Proof. reflexivity. Qed.

(** X1. The handler never fails on a well-formed address: whatever the
    four providers do, the answer is an analysis of that address; and an
    address that is not well formed is refused with status 400. *)
Theorem X1_handler_answers_by_address_format (address : string) (w : World) :
  (is_address address = true ->
   exists a, POST (Body (Some address)) w = Json a
             /\ contractAddress (tokenData a) = address)
  /\ (is_address address = false ->
      exists msg, POST (Body (Some address)) w = ErrorJson msg 400).
Proof.
  split; intros H; unfold POST; rewrite H.
  - rewrite (is_address_truthy _ H). cbn [negb].
    destruct (isBluechipToken address).
    + unfold getTokenMetadata. eexists. split; reflexivity.
    + eexists. split; [reflexivity|]. rewrite assess_tokenData. reflexivity.
  - cbn [negb]. destruct (negb (truthy_string address)); eexists; reflexivity.
Qed.

Lemma X1_witness :
  (exists a, POST (Body (Some Samples.addr_other)) Samples.world_down = Json a
             /\ contractAddress (tokenData a) = Samples.addr_other)
  /\ (exists msg, POST (Body (Some "0xabc"%string)) Samples.world_down
                  = ErrorJson msg 400).
Proof.
  split.
  - apply (proj1 (X1_handler_answers_by_address_format
                    Samples.addr_other Samples.world_down)).
    vm_compute. reflexivity.
  - apply (proj2 (X1_handler_answers_by_address_format
                    "0xabc"%string Samples.world_down)).
    vm_compute. reflexivity.
Defined.

(** ** Shape of the derived factor list *)

Ltac split_pushes :=
  repeat match goal with
         | |- context [push_if ?c _] => destruct c; cbn [push_if]
         end.

Lemma securityFactors_shape (sa : SecurityAnalysis) :
  Forall impact_in_range (securityFactors sa)
  /\ Forall (fun f => category f = "Security"%string) (securityFactors sa)
  /\ (List.length (securityFactors sa) <= 5)%nat.
Proof.
  unfold securityFactors, impact_in_range. split_pushes;
    (split; [|split]); simpl; repeat constructor; simpl; lia.
Qed.

Lemma marketFactors_shape (md : option MarketData) :
  Forall impact_in_range (marketFactors md)
  /\ Forall (fun f => category f = "Market"%string) (marketFactors md)
  /\ (List.length (marketFactors md) <= 3)%nat.
Proof.
  unfold marketFactors, impact_in_range. destruct md as [m|]; split_pushes;
    (split; [|split]); simpl; repeat constructor; simpl; lia.
Qed.

Lemma holderFactors_shape (ha : HolderAnalysis) :
  Forall impact_in_range (holderFactors ha)
  /\ Forall (fun f => category f = "Distribution"%string) (holderFactors ha)
  /\ (List.length (holderFactors ha) <= 3)%nat.
Proof.
  unfold holderFactors, impact_in_range.
  destruct (0 <? totalHolders ha); split_pushes;
    (split; [|split]); simpl; repeat constructor; simpl; lia.
Qed.

Lemma metadataFactors_shape (td : TokenMetadata) :
  Forall impact_in_range (metadataFactors td)
  /\ Forall (fun f => category f = "Metadata"%string) (metadataFactors td)
  /\ (List.length (metadataFactors td) <= 1)%nat.
Proof.
  unfold metadataFactors, impact_in_range. split_pushes;
    (split; [|split]); simpl; repeat constructor; simpl; lia.
Qed.

Lemma tokenomicsFactors_cases (td : TokenMetadata) :
  tokenomicsFactors td = [] \/ tokenomicsFactors td = [tokenomics_factor].
Proof.
  unfold tokenomicsFactors.
  destruct (truthy_string (totalSupply td) && truthy_decimals (decimals td));
    [|now left].
  destruct (decimals td); [|now left].
  destruct (num_gt _ _); [now right | now left].
Qed.

Lemma tokenomicsFactors_shape (td : TokenMetadata) :
  Forall impact_in_range (tokenomicsFactors td)
  /\ Forall (fun f => category f = "Tokenomics"%string) (tokenomicsFactors td)
  /\ (List.length (tokenomicsFactors td) <= 1)%nat.
Proof.
  unfold impact_in_range.
  destruct (tokenomicsFactors_cases td) as [-> | ->];
    (split; [|split]); simpl; repeat constructor; simpl; lia.
Qed.

Lemma derived_impacts_in_range (a : ComprehensiveAnalysis) :
  Forall impact_in_range (identifyRiskFactorsFiltered a).
Proof.
  unfold identifyRiskFactorsFiltered.
  destruct (securityFactors_shape (securityAnalysis a)) as (S1 & _).
  destruct (marketFactors_shape (marketData a)) as (M1 & _).
  destruct (holderFactors_shape (holderAnalysis a)) as (H1 & _).
  destruct (metadataFactors_shape (tokenData a)) as (D1 & _).
  destruct (tokenomicsFactors_shape (tokenData a)) as (T1 & _).
  apply Forall_app; split; [exact S1|].
  apply Forall_app; split; [exact M1|].
  apply Forall_app; split; [exact H1|].
  apply Forall_app; split; [exact D1 | exact T1].
Qed.

(** X2. Every derived factor weighs between 10 and 30 points and at most
    thirteen factors are derived. *)
Theorem X2_factor_impacts_bounded (a : ComprehensiveAnalysis) :
  Forall (fun f => 10 <= impact f <= 30) (identifyRiskFactorsFiltered a)
  /\ (List.length (identifyRiskFactorsFiltered a) <= 13)%nat.
Proof.
  split; [exact (derived_impacts_in_range a)|].
  unfold identifyRiskFactorsFiltered.
  destruct (securityFactors_shape (securityAnalysis a)) as (_ & _ & S3).
  destruct (marketFactors_shape (marketData a)) as (_ & _ & M3).
  destruct (holderFactors_shape (holderAnalysis a)) as (_ & _ & H3).
  destruct (metadataFactors_shape (tokenData a)) as (_ & _ & D3).
  destruct (tokenomicsFactors_shape (tokenData a)) as (_ & _ & T3).
  rewrite !length_app. lia.
Qed.

Lemma sorted_app_by_rank (k : Z) (l1 l2 : list RiskFactor) :
  Forall (fun f => category_rank (category f) = k) l1 ->
  Forall (fun f => k <= category_rank (category f)) l2 ->
  StronglySorted category_le l2 ->
  StronglySorted category_le (l1 ++ l2).
Proof.
  intros H1 H2 Hs. induction H1 as [|f l Hf Hl IH]; simpl; [exact Hs|].
  constructor; [exact IH|].
  apply Forall_app. split.
  - eapply Forall_impl; [|exact Hl]. intros g Hg.
    unfold category_le. simpl in Hg. rewrite Hf, Hg. lia.
  - eapply Forall_impl; [|exact H2]. intros g Hg.
    unfold category_le. rewrite Hf. exact Hg.
Qed.

Lemma Forall_category_rank (c : string) (k : Z) (l : list RiskFactor) :
  category_rank c = k ->
  Forall (fun f => category f = c) l ->
  Forall (fun f => category_rank (category f) = k) l.
Proof.
  intros Hk. apply Forall_impl. intros f ->. exact Hk.
Qed.

Lemma Forall_rank_ge (k k' : Z) (l : list RiskFactor) :
  k' <= k ->
  Forall (fun f => category_rank (category f) = k) l ->
  Forall (fun f => k' <= category_rank (category f)) l.
Proof.
  intros Hk. apply Forall_impl. intros f ->. exact Hk.
Qed.

Ltac by_rank H := eapply Forall_rank_ge; [|exact H]; lia.

(** X3. The derived factors come grouped by category, in the order
    Security, Market, Distribution, Metadata, Tokenomics. *)
Theorem X3_factors_grouped_by_category (a : ComprehensiveAnalysis) :
  StronglySorted
    (fun f g => category_rank (category f) <= category_rank (category g))
    (identifyRiskFactorsFiltered a).
Proof.
  change (StronglySorted category_le (identifyRiskFactorsFiltered a)).
  unfold identifyRiskFactorsFiltered.
  destruct (securityFactors_shape (securityAnalysis a)) as (_ & S2 & _).
  destruct (marketFactors_shape (marketData a)) as (_ & M2 & _).
  destruct (holderFactors_shape (holderAnalysis a)) as (_ & H2 & _).
  destruct (metadataFactors_shape (tokenData a)) as (_ & D2 & _).
  destruct (tokenomicsFactors_shape (tokenData a)) as (_ & T2 & _).
  apply (Forall_category_rank "Security" 0 _ eq_refl) in S2.
  apply (Forall_category_rank "Market" 1 _ eq_refl) in M2.
  apply (Forall_category_rank "Distribution" 2 _ eq_refl) in H2.
  apply (Forall_category_rank "Metadata" 3 _ eq_refl) in D2.
  apply (Forall_category_rank "Tokenomics" 4 _ eq_refl) in T2.
  apply (sorted_app_by_rank 0); [exact S2 | |].
  { apply Forall_app; split; [by_rank M2|].
    apply Forall_app; split; [by_rank H2|].
    apply Forall_app; split; [by_rank D2 | by_rank T2]. }
  apply (sorted_app_by_rank 1); [exact M2 | |].
  { apply Forall_app; split; [by_rank H2|].
    apply Forall_app; split; [by_rank D2 | by_rank T2]. }
  apply (sorted_app_by_rank 2); [exact H2 | |].
  { apply Forall_app; split; [by_rank D2 | by_rank T2]. }
  apply (sorted_app_by_rank 3); [exact D2 | by_rank T2 |].
  rewrite <- (app_nil_r (tokenomicsFactors (tokenData a))).
  apply (sorted_app_by_rank 4); [exact T2 | constructor | constructor].
Qed.

(** ** Invariants of a returned analysis *)

Lemma sum_impacts_nonneg (l : list RiskFactor) :
  Forall impact_in_range l -> 0 <= sum_impacts l.
Proof.
  unfold sum_impacts, impact_in_range.
  induction 1 as [|f r Hf _ IH]; simpl; lia.
Qed.

(** X4. Every analysis the handler returns has a score between 0 and 100
    and carries the tier of its own score. *)
Theorem X4_returned_score_and_tier_agree
    (request : Request) (w : World) (a : ComprehensiveAnalysis) :
  POST request w = Json a ->
  0 <= overallRiskScore a <= 100
  /\ riskLevel a = determineRiskLevel (overallRiskScore a).
Proof.
  intros H. destruct (POST_Json_inv _ _ _ H) as [(_ & Hs & Hl & _) | [b ->]].
  - rewrite Hs, Hl. split; [lia | reflexivity].
  - split; [|reflexivity].
    change (overallRiskScore (assess b))
      with (calculateOverallRiskScore (identifyRiskFactorsFiltered b)).
    rewrite score_is_capped_sum.
    pose proof (sum_impacts_nonneg _ (derived_impacts_in_range b)). lia.
Qed.

Lemma X4_witness :
  exists a, POST (Body (Some Samples.addr_other)) Samples.world_no_source = Json a
            /\ 0 <= overallRiskScore a <= 100
            /\ riskLevel a = determineRiskLevel (overallRiskScore a).
Proof.
  eexists. split; [vm_compute; reflexivity|].
  apply (X4_returned_score_and_tier_agree
           (Body (Some Samples.addr_other)) Samples.world_no_source).
  vm_compute. reflexivity.
Defined.

(** ** When the avoid message is given *)

Lemma count_severity_app (sv : Severity) (l1 l2 : list RiskFactor) :
  count_severity sv (l1 ++ l2) = count_severity sv l1 + count_severity sv l2.
Proof.
  induction l1 as [|f r IH]; simpl; [reflexivity|]. rewrite IH. lia.
Qed.

Lemma critical_count (a : ComprehensiveAnalysis) :
  count_severity critical (identifyRiskFactorsFiltered a)
  = indicator ((0 <? totalHolders (holderAnalysis a))
               && num_gt (creatorPercentage (holderAnalysis a)) 50).
Proof.
  unfold identifyRiskFactorsFiltered. rewrite !count_severity_app.
  assert (S : count_severity critical (securityFactors (securityAnalysis a)) = 0).
  { unfold securityFactors. split_pushes; reflexivity. }
  assert (M : count_severity critical (marketFactors (marketData a)) = 0).
  { unfold marketFactors. destruct (marketData a); split_pushes; reflexivity. }
  assert (D : count_severity critical (metadataFactors (tokenData a)) = 0).
  { unfold metadataFactors. split_pushes; reflexivity. }
  assert (T : count_severity critical (tokenomicsFactors (tokenData a)) = 0).
  { destruct (tokenomicsFactors_cases (tokenData a)) as [-> | ->]; reflexivity. }
  rewrite S, M, D, T. unfold holderFactors.
  destruct (0 <? totalHolders (holderAnalysis a)); [|reflexivity].
  destruct (num_gt (creatorPercentage (holderAnalysis a)) 50);
    split_pushes; reflexivity.
Qed.

(** X5. A completed analysis carries the avoid message exactly when holder
    data is present and the creator holds more than 50% of the supply: no
    other rule is critical. *)
Theorem X5_avoid_iff_creator_majority (b : ComprehensiveAnalysis) :
  recommendation (assess b) = msg_avoid
  <-> (0 < totalHolders (holderAnalysis b)
       /\ num_gt (creatorPercentage (holderAnalysis b)) 50 = true).
Proof.
  change (recommendation (assess b)) with (generateRecommendation (assess b)).
  unfold generateRecommendation.
  change (riskFactors (assess b)) with (identifyRiskFactorsFiltered b).
  generalize (riskLevel (assess b)). intros lv.
  rewrite !filter_length_count, critical_count.
  destruct (Z.ltb_spec 0 (totalHolders (holderAnalysis b))) as [Hh | Hh];
    destruct (num_gt (creatorPercentage (holderAnalysis b)) 50); simpl.
  - split; [now split | reflexivity].
  - split; [|intros [_ ?]; discriminate].
    intros E. exfalso. revert E.
    destruct (_ || _); [discriminate|].
    destruct lv; simpl; discriminate.
  - split; [|intros [? _]; lia].
    intros E. exfalso. revert E.
    destruct (_ || _); [discriminate|].
    destruct lv; simpl; discriminate.
  - split; [|intros [? _]; lia].
    intros E. exfalso. revert E.
    destruct (_ || _); [discriminate|].
    destruct lv; simpl; discriminate.
Qed.

Lemma X5_witness :
  recommendation
    (assess (bundle Samples.clean_token None Samples.clean_security
               Samples.concentrated_holders))
  = msg_avoid.
Proof.
  apply (proj2 (X5_avoid_iff_creator_majority _)).
  split; [reflexivity | vm_compute; reflexivity].
Defined.

(** ** Placeholders are recognised *)

Lemma assess_riskFactors (b : ComprehensiveAnalysis) :
  riskFactors (assess b) = identifyRiskFactorsFiltered b.
Proof. reflexivity. Qed.

Lemma failed_read_gives_placeholder (address : string) (w : World) :
  call_failed (w_name w) \/ call_failed (w_symbol w) ->
  exists td, getTokenMetadata address w = fulfilled td
             /\ metadataFactors td = [factor_metadata].
Proof.
  intros H. unfold getTokenMetadata. eexists. split; [reflexivity|].
  unfold metadataFactors. cbn [name symbol].
  destruct H as [[H | [H | [H | H]]] | [H | [H | [H | H]]]]; rewrite H;
    cbn [callContractMethod or_string truthy_string];
    rewrite ?String.eqb_refl, ?orb_true_r; reflexivity.
Qed.

(** X6. When the read of the token's name or of its symbol fails (the call
    throws, is refused, or answers nothing), the analysis of a
    non-allowlisted address contains the metadata factor. *)
Theorem X6_failed_name_read_is_flagged (address : string) (w : World) :
  is_address address = true ->
  isBluechipToken address = false ->
  call_failed (w_name w) \/ call_failed (w_symbol w) ->
  exists a, POST (Body (Some address)) w = Json a
            /\ In factor_metadata (riskFactors a).
Proof.
  intros Hwf Hnb Hfail. unfold POST.
  rewrite (is_address_truthy _ Hwf), Hwf, Hnb. cbn [negb].
  destruct (failed_read_gives_placeholder address w Hfail) as (td & -> & Hm).
  eexists. split; [reflexivity|].
  rewrite assess_riskFactors. unfold identifyRiskFactorsFiltered.
  do 3 (apply in_or_app; right). apply in_or_app; left.
  cbn [tokenData bundle]. rewrite Hm. now left.
Qed.

Lemma X6_witness :
  exists a, POST (Body (Some Samples.addr_other)) Samples.world_down = Json a
            /\ In factor_metadata (riskFactors a).
Proof.
  apply (X6_failed_name_read_is_flagged Samples.addr_other Samples.world_down).
  - vm_compute. reflexivity.
  - vm_compute. reflexivity.
  - left. left. reflexivity.
Defined.

(** ** Rug-pull risk *)

(** X7. The rug-pull risk is the plain sum of its six weights: the cap at
    100 never cuts anything, the value is 100 only when every condition is
    bad and 0 only when every condition is good. *)
Theorem X7_rug_pull_risk_is_uncapped_sum (sa : SecurityAnalysis) :
  calculateRugPullRisk sa
  = 25 * indicator (negb (isVerified sa))
    + 15 * indicator (hasMintFunction sa)
    + 25 * indicator (hasBlacklistFunction sa)
    + 10 * indicator (hasPauseFunction sa)
    + 15 * indicator (hasProxyContract sa)
    + 10 * indicator (negb (hasOwnershipRenounced sa))
  /\ 0 <= calculateRugPullRisk sa <= 100
  /\ (calculateRugPullRisk sa = 100
      <-> flags sa = [false; true; true; true; true; false])
  /\ (calculateRugPullRisk sa = 0
      <-> flags sa = [true; false; false; false; false; true]).
Proof.
  destruct sa as [v x m p b r k]. unfold flags. cbn [isVerified hasProxyContract
    hasMintFunction hasPauseFunction hasBlacklistFunction hasOwnershipRenounced].
  destruct v, x, m, p, b, r; vm_compute;
    (split; [reflexivity|]); (split; [split; discriminate|]);
    split; split; intros H; solve [reflexivity | discriminate H].
Qed.

(** ** Fields that are carried but never scored *)

(** X8. The stored [rugPullRisk] and [distributionScore] play no part in
    the assessment: changing them changes neither the factors nor the
    score, the tier or the recommendation. *)
Theorem X8_derived_fields_are_not_scored
    (td : TokenMetadata) (md : option MarketData) (sa : SecurityAnalysis)
    (ha : HolderAnalysis) (r : Z) (v : Q) :
  let a := assess (bundle td md sa ha) in
  let a' := assess (bundle td md (set_rugPullRisk sa r)
                      (set_distributionScore ha v)) in
  riskFactors a' = riskFactors a
  /\ overallRiskScore a' = overallRiskScore a
  /\ riskLevel a' = riskLevel a
  /\ recommendation a' = recommendation a.
Proof.
  intros a a'.
  assert (E : identifyRiskFactorsFiltered
                (bundle td md (set_rugPullRisk sa r) (set_distributionScore ha v))
              = identifyRiskFactorsFiltered (bundle td md sa ha))
    by reflexivity.
  subst a a'. unfold assess.
  cbn [riskFactors overallRiskScore riskLevel recommendation
       set_riskFactors set_overallRiskScore set_riskLevel set_recommendation].
  rewrite E. repeat split.
Qed.

(** ** Distribution score and holder profile *)

Local Open Scope Q_scope.




Lemma inject_Z_nat_nonneg (n : nat) : 0 <= inject_Z (Z.of_nat n).
Proof.
  change 0 with (inject_Z 0). rewrite <- Zle_Qle. apply Nat2Z.is_nonneg.
Qed.


















(** X13. Whenever the holder endpoint gives no usable rows -- the request
    throws, the response is not [ok], the status is not "1", the result is
    missing or the list is empty -- the adapter answers with the default
    profile, and that profile triggers no distribution factor. *)
Theorem X13_no_rows_gives_unscored_default (w : World) :
  no_holder_rows (w_holders w) ->
  analyzeHolderDistribution w = fulfilled getDefaultHolderAnalysis
  /\ holderFactors getDefaultHolderAnalysis = [].
Proof.
  intros H. split; [|reflexivity].
  unfold analyzeHolderDistribution.
  destruct H as [-> | [-> | (d & -> & H)]]; try reflexivity.
  destruct H as [H | [-> | ->]].
  - apply String.eqb_neq in H. rewrite H. reflexivity.
  - destruct (String.eqb _ _); reflexivity.
  - destruct (String.eqb _ _); reflexivity.
Qed.

Lemma X13_witness :
  analyzeHolderDistribution Samples.world_down = fulfilled getDefaultHolderAnalysis
  /\ holderFactors getDefaultHolderAnalysis = [].
Proof.
  apply (X13_no_rows_gives_unscored_default Samples.world_down).
  left. reflexivity.
Defined.

(** ** Market adapter *)

Local Open Scope Z_scope.

(** X14. An unlisted token is not penalised, a listed token without
    figures is: when the market request fails the snapshot is absent and no
    market factor is derived, but when the provider answers without volume
    and market-cap figures they are read as 0 and both market factors are
    derived. *)
Theorem X14_missing_market_figures_are_penalised (w : World) :
  (w_market w = MarketThrows \/ w_market w = MarketNotOk ->
   getMarketData w = fulfilled None /\ marketFactors None = [])
  /\ (forall coin : CoinData,
        w_market w = MarketOk coin ->
        cd_total_volume coin = None ->
        cd_market_cap coin = None ->
        exists m, getMarketData w = fulfilled (Some m)
                  /\ In factor_low_volume (marketFactors (Some m))
                  /\ In factor_low_cap (marketFactors (Some m))
                  /\ 25 <= sum_impacts (marketFactors (Some m))).
Proof.
  split.
  - intros [H | H]; unfold getMarketData; rewrite H; split; reflexivity.
  - intros coin Hw Hv Hc. unfold getMarketData. rewrite Hw.
    eexists. split; [reflexivity|].
    unfold marketFactors. cbn [volume24h marketCap priceChange24h].
    rewrite Hv, Hc. cbn [or_zero].
    change (Qlt_bool 0 10000) with true. change (Qlt_bool 0 100000) with true.
    cbn [push_if].
    split; [left; reflexivity|].
    split; [right; left; reflexivity|].
    destruct (Qlt_bool _ _); vm_compute; discriminate.
Qed.

Lemma X14_witness :
  getMarketData Samples.world_down = fulfilled None /\ marketFactors None = [].
Proof.
  apply (proj1 (X14_missing_market_figures_are_penalised Samples.world_down)).
  left. reflexivity.
Defined.

(** ** Source scan *)

Local Open Scope string_scope.

Lemma toLowerCase_app (s1 s2 : string) :
  toLowerCase (s1 ++ s2) = toLowerCase s1 ++ toLowerCase s2.
Proof.
  induction s1 as [|c s1 IH]; simpl; [reflexivity|]. now rewrite IH.
Qed.

Lemma strip_prefix_app (l post : string) :
  strip_prefix l (l ++ post) = Some post.
Proof.
  induction l as [|c l IH]; simpl; [now destruct post|].
  now rewrite Ascii.eqb_refl.
Qed.

Lemma regex_test_here (pat : list item) (s : string) :
  match_here pat s = true -> regex_test pat s = true.
Proof. intros H. destruct s; simpl regex_test; rewrite H; reflexivity. Qed.

(** A literal pattern matches any text that contains it. *)
Lemma regex_test_lit_app (l pre post : string) :
  regex_test [Lit l] (pre ++ l ++ post) = true.
Proof.
  induction pre as [|c pre IH].
  - simpl String.append. apply regex_test_here.
    simpl. now rewrite strip_prefix_app.
  - simpl String.append. simpl regex_test. rewrite IH. apply orb_true_r.
Qed.

(** X15. A verified source that contains the word "blacklist" anywhere, in
    any letter case, gets the blacklist flag and the blacklist factor:
    the scan looks for the word, not for a function. *)
Theorem X15_blacklist_word_sets_the_flag
    (w : World) (pre word post : string) :
  w_security w = SecurityOk (pre ++ word ++ post) ->
  toLowerCase word = "blacklist" ->
  exists sa, performSecurityAnalysis w = fulfilled sa
             /\ isVerified sa = true
             /\ hasBlacklistFunction sa = true
             /\ In factor_blacklist (securityFactors sa).
Proof.
  intros Hw Hword. unfold performSecurityAnalysis. rewrite Hw.
  set (src := pre ++ word ++ post).
  assert (Hne : truthy_string src = true).
  { subst src. destruct pre; [|reflexivity].
    destruct word; [discriminate Hword | reflexivity]. }
  assert (Hneq : String.eqb src "" = false).
  { destruct src; [discriminate Hne | reflexivity]. }
  assert (Hb : regex_test_i [Lit "blacklist"] src = true).
  { unfold regex_test_i. subst src.
    rewrite !toLowerCase_app, Hword. apply regex_test_lit_app. }
  eexists. split; [reflexivity|].
  unfold scanSource. rewrite Hne, Hneq, Hb.
  cbn [set_rugPullRisk isVerified hasBlacklistFunction negb orb].
  split; [reflexivity|]. split; [reflexivity|].
  unfold securityFactors.
  cbn [isVerified hasMintFunction hasBlacklistFunction set_rugPullRisk].
  apply in_or_app. right. apply in_or_app. right. left. reflexivity.
Qed.

Lemma X15_witness :
  exists sa,
    performSecurityAnalysis
      {| w_name := CallThrows; w_symbol := CallThrows; w_decimals := CallThrows;
         w_totalSupply := CallThrows; w_market := MarketThrows;
         w_security := SecurityOk ("// no " ++ "BlackList" ++ " here");
         w_holders := HolderThrows |}
    = fulfilled sa
    /\ isVerified sa = true
    /\ hasBlacklistFunction sa = true
    /\ In factor_blacklist (securityFactors sa).
Proof.
  apply (X15_blacklist_word_sets_the_flag _ "// no " "BlackList" " here").
  - reflexivity.
  - vm_compute. reflexivity.
Defined.

(* ================================================================== *)
(** * Properties of the red-flag route *)
(* ================================================================== *)

Local Open Scope Z_scope.

Lemma red_flag_score_sum (rf : Legacy.RedFlags) :
  Legacy.calculateRiskScore rf
  = 25 * indicator (Legacy.noNameOrSymbol rf)
    + 20 * indicator (Legacy.hugeSupply rf)
    + 20 * indicator (Legacy.fewTransfers rf)
    + 20 * indicator (Legacy.fewHolders rf)
    + 15 * indicator (Legacy.recentlyCreated rf).
Proof. destruct rf as [a b c d e]. destruct a, b, c, d, e; reflexivity. Qed.

(** X16. The red-flag score is the plain sum of the weights of the raised
    flags -- the weights add up to 100, so the cap never cuts -- and it is
    100 only when all five flags are raised. *)
Theorem X16_red_flag_score_is_uncapped_sum (rf : Legacy.RedFlags) :
  Legacy.calculateRiskScore rf
  = 25 * indicator (Legacy.noNameOrSymbol rf)
    + 20 * indicator (Legacy.hugeSupply rf)
    + 20 * indicator (Legacy.fewTransfers rf)
    + 20 * indicator (Legacy.fewHolders rf)
    + 15 * indicator (Legacy.recentlyCreated rf)
  /\ 0 <= Legacy.calculateRiskScore rf <= 100
  /\ (Legacy.calculateRiskScore rf = 100
      <-> rf = Legacy.Build_RedFlags true true true true true).
Proof.
  destruct rf as [a b c d e].
  destruct a, b, c, d, e; vm_compute;
    (split; [reflexivity|]); (split; [split; discriminate|]);
    split; intros H; solve [reflexivity | discriminate H].
Qed.

(** X17. The red-flag tier is Low up to 30, Medium up to 70 and High
    above, and it never decreases when the score grows. *)
Theorem X17_red_flag_tier_is_monotone_step_function :
  (forall s : Z,
      (s <= 30 -> Legacy.getRiskLevel s = Legacy.Low)
      /\ (30 < s <= 70 -> Legacy.getRiskLevel s = Legacy.Medium)
      /\ (70 < s -> Legacy.getRiskLevel s = Legacy.High))
  /\ (forall s1 s2 : Z,
        s1 <= s2 ->
        Legacy.level_rank (Legacy.getRiskLevel s1)
        <= Legacy.level_rank (Legacy.getRiskLevel s2)).
Proof.
  split.
  - intros s. unfold Legacy.getRiskLevel.
    repeat split; intros H;
      repeat (match goal with
              | |- context [?a <=? ?b] => destruct (Z.leb_spec a b)
              end; try lia; try reflexivity).
  - intros s1 s2 H. unfold Legacy.getRiskLevel.
    repeat (match goal with
            | |- context [?a <=? ?b] => destruct (Z.leb_spec a b)
            end; simpl; try lia).
Qed.

Lemma X17_witness :
  Legacy.getRiskLevel 70 = Legacy.Medium
  /\ Legacy.level_rank (Legacy.getRiskLevel 70)
     <= Legacy.level_rank (Legacy.getRiskLevel 71).
Proof.
  split.
  - apply (proj1 X17_red_flag_tier_is_monotone_step_function 70). lia.
  - apply (proj2 X17_red_flag_tier_is_monotone_step_function 70 71). lia.
Defined.

Lemma or_string_truthy (v : option string) (d : string) :
  truthy_string d = true -> truthy_string (or_string v d) = true.
Proof.
  intros Hd. destruct v as [s|]; simpl; [|exact Hd].
  destruct (truthy_string s) eqn:E; [exact E | exact Hd].
Qed.

(** X18. The metadata of the red-flag route is always complete: name,
    symbol and total supply are never empty, and [decimals] is a non-zero
    integer -- a reported 0, like an unreadable answer, becomes 18. *)
Theorem X18_red_flag_metadata_is_complete (w : Legacy.World) :
  truthy_string (Legacy.name (Legacy.getTokenMetadata w)) = true
  /\ truthy_string (Legacy.symbol (Legacy.getTokenMetadata w)) = true
  /\ truthy_string (Legacy.totalSupply (Legacy.getTokenMetadata w)) = true
  /\ exists d, Legacy.decimals (Legacy.getTokenMetadata w) = Some d /\ d <> 0.
Proof.
  unfold Legacy.getTokenMetadata.
  cbn [Legacy.name Legacy.symbol Legacy.totalSupply Legacy.decimals].
  repeat split; try (apply or_string_truthy; reflexivity).
  unfold Legacy.or_18.
  match goal with |- context [match ?x with Some _ => _ | None => _ end] =>
    destruct x as [z|] end.
  - destruct (Z.eqb_spec z 0); eexists; split; try reflexivity; lia.
  - eexists; split; [reflexivity | lia].
Qed.

(** X19. "Recently created" is the same signal as "few transfers": the two
    flags are always equal, so an unreadable or short transaction history
    costs 35 points and the tier cannot be Low. *)
Theorem X19_transfer_signal_counts_twice
    (td : Legacy.TokenMetadata) (w : Legacy.World) :
  Legacy.recentlyCreated (Legacy.analyzeRedFlags td w)
  = Legacy.fewTransfers (Legacy.analyzeRedFlags td w)
  /\ (few_transactions (Legacy.w_transactions w) ->
      35 <= Legacy.calculateRiskScore (Legacy.analyzeRedFlags td w)
      /\ Legacy.getRiskLevel
           (Legacy.calculateRiskScore (Legacy.analyzeRedFlags td w))
         <> Legacy.Low).
Proof.
  split; [reflexivity|].
  intros H.
  assert (Hf : Legacy.fewTransfers (Legacy.analyzeRedFlags td w) = true).
  { unfold Legacy.analyzeRedFlags. cbn [Legacy.fewTransfers].
    destruct H as [-> | [-> | [-> | (len & -> & Hlen)]]]; try reflexivity.
    apply Z.ltb_lt, Hlen. }
  assert (Hr : Legacy.recentlyCreated (Legacy.analyzeRedFlags td w) = true)
    by exact Hf.
  pose proof (red_flag_score_sum (Legacy.analyzeRedFlags td w)) as Hs.
  rewrite Hf, Hr in Hs. unfold indicator in Hs.
  assert (Hge : 35 <= Legacy.calculateRiskScore (Legacy.analyzeRedFlags td w)).
  { rewrite Hs.
    destruct (Legacy.noNameOrSymbol _), (Legacy.hugeSupply _),
      (Legacy.fewHolders _); lia. }
  split; [exact Hge|].
  unfold Legacy.getRiskLevel.
  destruct (Z.leb_spec (Legacy.calculateRiskScore (Legacy.analyzeRedFlags td w)) 30);
    [lia|].
  destruct (_ <=? 70); discriminate.
Qed.

Lemma X19_witness :
  35 <= Legacy.calculateRiskScore
          (Legacy.analyzeRedFlags (Legacy.getTokenMetadata legacy_world_down)
             legacy_world_down)
  /\ Legacy.getRiskLevel
       (Legacy.calculateRiskScore
          (Legacy.analyzeRedFlags (Legacy.getTokenMetadata legacy_world_down)
             legacy_world_down))
     <> Legacy.Low.
Proof.
  apply (proj2 (X19_transfer_signal_counts_twice
                  (Legacy.getTokenMetadata legacy_world_down) legacy_world_down)).
  left. reflexivity.
Defined.




(** X21. In the red-flag route a failed read of the name or of the symbol
    is always recognised: the placeholder put in its place raises the
    "no name or symbol" flag. *)
Theorem X21_red_flag_placeholder_is_flagged (w : Legacy.World) :
  read_failed (Legacy.w_name w) \/ read_failed (Legacy.w_symbol w) ->
  Legacy.noNameOrSymbol
    (Legacy.analyzeRedFlags (Legacy.getTokenMetadata w) w) = true.
Proof.
  intros H. unfold Legacy.analyzeRedFlags, Legacy.getTokenMetadata.
  cbn [Legacy.noNameOrSymbol Legacy.name Legacy.symbol].
  destruct H as [[H | [H | H]] | [H | [H | H]]]; rewrite H;
    cbn [or_string truthy_string];
    rewrite ?String.eqb_refl, ?orb_true_r; reflexivity.
Qed.

Lemma X21_witness :
  Legacy.noNameOrSymbol
    (Legacy.analyzeRedFlags (Legacy.getTokenMetadata legacy_world_down)
       legacy_world_down) = true.
Proof.
  apply (X21_red_flag_placeholder_is_flagged legacy_world_down).
  left. left. reflexivity.
Defined.
